(** * REDD HDF5 -> .dat converters: a shallow embedding and its properties

    The development follows the two converter scripts of the repository:
    - [convert_redd_h5_to_dat.py]  (function [convert_h5_to_dat_format], the
      h5py based converter), and
    - [convert_redd_h5_to_dat_pytables.py] (function
      [convert_h5_to_dat_pytables], the pandas/PyTables based converter).

    Python values are modelled as follows.  A [str] is a Rocq [string] holding
    the UTF-8 bytes of the text.  An int64 is a [Z].  A float64 is a
    [spec_float] of the IEEE-754 binary64 format, operated on with the
    operations of [SpecFloat] (round to nearest, ties to even).  Exceptions are
    values of an error monad; console output and file system effects are
    recorded, in program order, in an event log. *)

From Stdlib Require Import ZArith List String Ascii Bool Lia.
From Stdlib Require Import Numbers.DecimalString Numbers.DecimalPos Numbers.DecimalZ.
From Stdlib Require Import Floats.SpecFloat.
Import ListNotations.

Open Scope string_scope.
Open Scope Z_scope.

(** ** Python strings *)

Module PyStr.

(** [s.startswith(p)] *)
Definition startswith (s p : string) : bool := String.prefix p s.

(** [sub in s] for two strings: [sub] occurs at some position of [s]. *)
Fixpoint contains (sub s : string) : bool :=
  String.prefix sub s ||
  match s with
  | EmptyString => false
  | String _ s' => contains sub s'
  end.

(** [s.replace(old, '')] for a non-empty [old]: the occurrences of [old] are
    found from left to right, without overlap, and dropped.  [skip] counts the
    characters of an occurrence that are still to be dropped. *)
Fixpoint remove_from (old : string) (skip : nat) (s : string) : string :=
  match s with
  | EmptyString => EmptyString
  | String c s' =>
      match skip with
      | S k => remove_from old k s'
      | O =>
          if String.prefix old s
          then remove_from old (Nat.pred (String.length old)) s'
          else String c (remove_from old O s')
      end
  end.

Definition remove (old s : string) : string := remove_from old O s.

(** [s.lower()].  On the UTF-8 bytes only the ASCII capitals change; this
    agrees with Python on every match against an ASCII pattern made of the
    letters used below ("value", "power"). *)
Definition lower_ascii (c : ascii) : ascii :=
  let n := nat_of_ascii c in
  if ((65 <=? n)%nat && (n <=? 90)%nat)%bool then ascii_of_nat (n + 32) else c.

Fixpoint lower (s : string) : string :=
  match s with
  | EmptyString => EmptyString
  | String c s' => String (lower_ascii c) (lower s')
  end.

(** [str(n)] for an integer. *)
Definition of_int (z : Z) : string := NilZero.string_of_int (Z.to_int z).

(** The white space that [int()] strips: TAB..CR, FS..US and the space. *)
Definition is_space (c : ascii) : bool :=
  let n := nat_of_ascii c in
  (((9 <=? n)%nat && (n <=? 13)%nat) || ((28 <=? n)%nat && (n <=? 32)%nat))%bool.

Definition is_digit (c : ascii) : bool :=
  let n := nat_of_ascii c in ((48 <=? n)%nat && (n <=? 57)%nat)%bool.

Fixpoint lstrip (s : string) : string :=
  match s with
  | String c s' => if is_space c then lstrip s' else s
  | EmptyString => EmptyString
  end.

(** Only white space is left. *)
Fixpoint all_space (s : string) : bool :=
  match s with
  | EmptyString => true
  | String c s' => is_space c && all_space s'
  end.

(** Digits with single underscores between them, as [int()] accepts them,
    followed by white space only.  [prev] tells whether the previous
    character was a digit; the result is the digits read. *)
Fixpoint digits_body (prev : bool) (s : string) : option string :=
  match s with
  | EmptyString => if prev then Some EmptyString else None
  | String c s' =>
      if is_digit c then
        match digits_body true s' with
        | Some d => Some (String c d)
        | None => None
        end
      else if Ascii.eqb c "_" then
        if prev then
          match s' with
          | String c' _ => if is_digit c' then digits_body false s' else None
          | EmptyString => None
          end
        else None
      else if (prev && all_space s)%bool then Some EmptyString
      else None
  end.

Definition unsigned_of (s : string) : option Z :=
  match digits_body false s with
  | Some d =>
      match NilZero.uint_of_string d with
      | Some u => Some (Z.of_uint u)
      | None => None
      end
  | None => None
  end.

(** [int(s)] in base 10: [None] stands for the [ValueError].  Decimal digits
    and spaces outside ASCII, which Python also accepts, are not recognised by
    this model (such a text is reported as not parseable), and the limit that
    recent Python versions put on the number of digits is left out. *)
Definition to_int (s : string) : option Z :=
  match lstrip s with
  | String c r =>
      if Ascii.eqb c "-" then option_map Z.opp (unsigned_of r)
      else if Ascii.eqb c "+" then unsigned_of r
      else unsigned_of (String c r)
  | EmptyString => None
  end.

(** ['\n'.join(ls)] *)
Definition newline : string := String (ascii_of_nat 10) EmptyString.

Definition join_lines (ls : list string) : string := String.concat newline ls.

End PyStr.

(** ** IEEE-754 binary64, as numpy's float64 *)

Module F64.

Definition prec : Z := 53.
Definition emax : Z := 1024.

Definition t : Type := spec_float.

(** Conversion of an int64 to float64 (round to nearest even), as numpy does
    before a true division of an integer array by a Python float. *)
Definition of_Z (z : Z) : t := binary_normalize prec emax z 0 false.

Definition div (x y : t) : t := SFdiv prec emax x y.

(** [x > y] on floats; any comparison with NaN is false. *)
Definition gtb (x y : t) : bool := SFltb y x.

Definition int64_min : Z := - 2 ^ 63.
Definition int64_max : Z := 2 ^ 63 - 1.

(** The integer part of a finite float, towards zero. *)
Definition integer_part (s : bool) (m : positive) (e : Z) : Z :=
  let a := match e with
           | Z0 => Zpos m
           | Zpos p => Zpos m * 2 ^ Zpos p
           | Zneg p => Zpos m / 2 ^ Zpos p
           end in
  if s then - a else a.

(** [x.astype(int)] on a float64: truncation towards zero.  NaN, the
    infinities and values outside int64 give the "integer indefinite" value
    of the x86-64 conversion instruction, [- 2^63]. *)
Definition to_int64 (x : t) : Z :=
  match x with
  | S754_zero _ => 0
  | S754_finite s m e =>
      let v := integer_part s m e in
      if ((int64_min <=? v) && (v <=? int64_max))%bool then v else int64_min
  | S754_infinity _ | S754_nan => int64_min
  end.

(** The literals [1e9] and [1e12]; both are integers below [2^53]. *)
Definition c1e9 : t := Eval vm_compute in of_Z 1000000000.
Definition c1e12 : t := Eval vm_compute in of_Z 1000000000000.




End F64.

(** [(timestamps / 1e9).astype(int)] on one int64 element. *)
Definition ns_to_seconds (ts : Z) : Z := F64.to_int64 (F64.div (F64.of_Z ts) F64.c1e9).

(** ** Printing a float64 the way [DataFrame.to_csv] does

    Without a [float_format], pandas writes a float column through
    [values.astype(str)]: the shortest decimal text that reads back as the
    same float64 (the text of Python's [repr]), and the empty text for NaN. *)

Module FloatRepr.

(** The float64 nearest to [d * 10^x], for a positive integer [d]. *)
Definition of_decimal (d : positive) (x : Z) : F64.t :=
  match x with
  | Zneg p => SFdiv F64.prec F64.emax (S754_finite false d 0)
                (S754_finite false (Pos.pow 10 p) 0)
  | _ => binary_normalize F64.prec F64.emax (Zpos d * 10 ^ x) 0 false
  end.

Definition same_finite (m : positive) (e : Z) (y : F64.t) : bool :=
  match y with
  | S754_finite false m' e' => (Pos.eqb m m' && Z.eqb e e')%bool
  | _ => false
  end.

(** The value [m * 2^e] as a fraction. *)
Definition numer (m : positive) (e : Z) : Z :=
  match e with Zpos p => Zpos m * 2 ^ Zpos p | _ => Zpos m end.
Definition denom (e : Z) : Z :=
  match e with Zneg p => 2 ^ Zpos p | _ => 1 end.

(** The decimal exponent [k] with [10^k <= num/den < 10^(k+1)], searched
    upwards from [k]. *)
Fixpoint decimal_exponent (fuel : nat) (num den k : Z) : Z :=
  match fuel with
  | O => k
  | S fuel' =>
      let below :=
        match k + 1 with
        | Zneg p => num * 10 ^ Zpos p <? den
        | k1 => num <? den * 10 ^ k1
        end in
      if below then k else decimal_exponent fuel' num den (k + 1)
  end.

(** [num/den * 10^s] as a fraction. *)
Definition scaled (num den s : Z) : Z * Z :=
  match s with
  | Zneg p => (num, den * 10 ^ Zpos p)
  | _ => (num * 10 ^ s, den)
  end.

(** The digits of the shortest decimal with at most [fuel] more digits than
    [p - 1] that reads back as [m * 2^e]; the result is the integer [d] and
    the exponent [x] of the decimal [d * 10^x]. *)
Fixpoint shortest (fuel : nat) (m : positive) (e : Z) (k : Z) (p : Z) : Z * Z :=
  let x := k - p + 1 in
  let '(n, d) := scaled (numer m e) (denom e) (- x) in
  let lo := n / d in
  let hi := lo + 1 in
  let ok c := match c with
              | Zpos c' => same_finite m e (of_decimal c' x)
              | _ => false
              end in
  let lo_closer := 2 * (n - lo * d) <? d in
  let tie := 2 * (n - lo * d) =? d in
  let prefer_lo := (lo_closer || (tie && Z.even lo))%bool in
  match fuel with
  | O => (if prefer_lo then lo else hi, x)
  | S fuel' =>
      match ok lo, ok hi with
      | true, true => (if prefer_lo then lo else hi, x)
      | true, false => (lo, x)
      | false, true => (hi, x)
      | false, false => shortest fuel' m e k (p + 1)
      end
  end.

Fixpoint zeros (n : nat) : string :=
  match n with O => EmptyString | S n' => String "0" (zeros n') end.

(** Trailing zeros of a digit text are dropped (at least one digit stays). *)
Fixpoint strip_zeros (s : string) : string :=
  match s with
  | EmptyString => EmptyString
  | String c s' =>
      match strip_zeros s' with
      | EmptyString => if Ascii.eqb c "0" then EmptyString else String c EmptyString
      | r => String c r
      end
  end.

Definition two_digits (z : Z) : string :=
  if z <? 10 then String "0" (PyStr.of_int z) else PyStr.of_int z.

(** The text of the positive decimal with digits [ds] and scientific exponent
    [X] (the value is [d.ddd * 10^X]). *)
Definition layout (ds : string) (X : Z) : string :=
  let len := Z.of_nat (String.length ds) in
  if ((-4 <=? X) && (X <? 16))%bool then
    if X <? 0 then "0." ++ zeros (Z.to_nat (- X - 1)) ++ ds
    else if len - 1 <=? X then ds ++ zeros (Z.to_nat (X - len + 1)) ++ ".0"
    else String.substring 0 (Z.to_nat (X + 1)) ds ++ "." ++
         String.substring (Z.to_nat (X + 1)) (Z.to_nat (len - X - 1)) ds
  else
    String.substring 0 1 ds ++
    (if 1 <? len then "." ++ String.substring 1 (Z.to_nat (len - 1)) ds else "") ++
    "e" ++ (if X <? 0 then "-" ++ two_digits (- X) else "+" ++ two_digits X).

Definition positive_text (m : positive) (e : Z) : string :=
  let k := decimal_exponent 700 (numer m e) (denom e) (-330) in
  let '(d, x) := shortest 16 m e k 1 in
  let all := PyStr.of_int d in
  let ds := match strip_zeros all with EmptyString => "0" | r => r end in
  layout ds (x + Z.of_nat (String.length all) - 1).

Definition to_csv_text (v : F64.t) : string :=
  match v with
  | S754_nan => ""
  | S754_infinity s => if s then "-inf" else "inf"
  | S754_zero s => if s then "-0.0" else "0.0"
  | S754_finite s m e => (if s then "-" else "") ++ positive_text m e
  end.

End FloatRepr.

(** ** Exceptions *)

Inductive exn : Type :=
| KeyError | ValueError | TypeError | AttributeError | IndexError.

Inductive outcome (A : Type) : Type :=
| Ok (a : A)
| Raise (e : exn).
Arguments Ok {A} a.
Arguments Raise {A} e.

Definition bind {A B : Type} (m : outcome A) (k : A -> outcome B) : outcome B :=
  match m with
  | Ok a => k a
  | Raise e => Raise e
  end.

Notation "x <- m ;; k" := (bind m (fun x => k))
  (at level 61, m at next level, right associativity).

Definition or_raise {A : Type} (e : exn) (o : option A) : outcome A :=
  match o with
  | Some a => Ok a
  | None => Raise e
  end.

(** ** numpy arrays

    A one-dimensional array is a [column] of int64 values, of float64 values,
    or of [n] values of a dtype that is not numeric (arithmetic on it and its
    conversion to float raise).  A two-dimensional array of shape [(n, k)] is
    kept column-wise, as its [k] sub-fields. *)

Inductive column : Type :=
| Ints (xs : list Z)
| Floats (xs : list F64.t)
| Opaque (n : nat).

Inductive ndarray : Type :=
| Arr1 (c : column)
| Arr2 (n : nat) (subfields : list column).

Definition column_len (c : column) : nat :=
  match c with
  | Ints xs => List.length xs
  | Floats xs => List.length xs
  | Opaque n => n
  end.

(** [if len(a.shape) > 1: a = a[:, 0]] *)
Definition first_subfield (a : ndarray) : outcome column :=
  match a with
  | Arr1 c => Ok c
  | Arr2 _ (c :: _) => Ok c
  | Arr2 _ [] => Raise IndexError
  end.

(** [c.astype(float)] *)
Definition astype_float (c : column) : outcome (list F64.t) :=
  match c with
  | Ints xs => Ok (map F64.of_Z xs)
  | Floats xs => Ok xs
  | Opaque _ => Raise ValueError
  end.

(** [(c / 1e9).astype(int)] on a one-dimensional array *)
Definition div_1e9_astype_int (c : column) : outcome (list Z) :=
  match c with
  | Ints xs => Ok (map ns_to_seconds xs)
  | Floats xs => Ok (map (fun x => F64.to_int64 (F64.div x F64.c1e9)) xs)
  | Opaque _ => Raise TypeError
  end.

(** An integer array as [pandas.DataFrame] sees it: one-dimensional with its
    values, or of a higher dimension (which the constructor refuses). *)
Inductive int_array : Type :=
| Flat (xs : list Z)
| Matrix.

(** [pd.DataFrame({'timestamp': ts, 'power': power})] followed by
    [to_csv(..., sep=' ', header=False, index=False)]: the text written.
    Every row, the last one too, ends with the line terminator, which is
    [os.linesep]; the model takes the "\n" of a POSIX system. *)
Definition csv_line (r : Z * F64.t) : string :=
  PyStr.of_int (fst r) ++ " " ++ FloatRepr.to_csv_text (snd r) ++ PyStr.newline.

Definition to_csv (rows : list (Z * F64.t)) : string :=
  String.concat "" (map csv_line rows).

Definition dataframe_rows (ts : int_array) (power : list F64.t)
  : outcome (list (Z * F64.t)) :=
  match ts with
  | Matrix => Raise ValueError
  | Flat xs =>
      if Nat.eqb (List.length xs) (List.length power)
      then Ok (combine xs power)
      else Raise ValueError
  end.

(** ** The appliance table *)

Definition standard_redd_mapping (meter_num : Z) : option string :=
  match meter_num with
  | 1 => Some "mains"
  | 2 => Some "mains"
  | 3 => Some "oven"
  | 4 => Some "oven"
  | 5 => Some "refrigerator"
  | 6 => Some "dishwasher"
  | 7 => Some "kitchen_outlets"
  | 8 => Some "kitchen_outlets"
  | 9 => Some "lighting"
  | 10 => Some "washer_dryer"
  | 11 => Some "microwave"
  | 12 => Some "bathroom_gfi"
  | 13 => Some "electric_heat"
  | 14 => Some "stove"
  | 15 => Some "kitchen_outlets"
  | 16 => Some "kitchen_outlets"
  | 17 => Some "lighting"
  | 18 => Some "lighting"
  | 19 => Some "washer_dryer"
  | 20 => Some "washer_dryer"
  | _ => None
  end.

(** [standard_redd_mapping.get(meter_num, f'unknown_{meter_num}')] *)
Definition appliance_name (meter_num : Z) : string :=
  match standard_redd_mapping meter_num with
  | Some name => name
  | None => "unknown_" ++ PyStr.of_int meter_num
  end.

(** [f"{meter_num} {appliance_name}"] *)
Definition label_line (meter_num : Z) : string :=
  PyStr.of_int meter_num ++ " " ++ appliance_name meter_num.

(** ** Effects: the output tree and the console *)

(** Paths below the output directory. *)
Inductive path : Type :=
| OutputDir
| HouseDir (house : string)
| ChannelFile (house : string) (meter_num : Z)
| LabelsFile (house : string).

(** The text of a path, relative to the output directory. *)
Definition path_text (p : path) : string :=
  match p with
  | OutputDir => "."
  | HouseDir h => "house_" ++ h
  | ChannelFile h m => "house_" ++ h ++ "/channel_" ++ PyStr.of_int m ++ ".dat"
  | LabelsFile h => "house_" ++ h ++ "/labels.dat"
  end.

(** What the scripts print. *)
Inductive diag : Type :=
| Banner
| ProcessingHouses
| ProcessingHouse (house_key : string)
| NoElecGroup (house_key : string)
| NoTable (meter_key : string)
| EmptyTable (meter_key : string)
| NoPowerValues (meter_key : string)
| CouldNotReadTable (e : exn)
| CouldNotProcess (meter_key : string) (e : exn)
| CreatedChannel (meter_num : Z) (name : string) (samples : nat)
| CreatedLabels (channels : nat)
| ConversionComplete (processed_houses : nat)
| AvailableKeys
| ProcessingBuilding (building_num : Z)
| FoundData (meter_num : Z) (samples : nat)
| CreatedChannelFor (meter_num : Z) (name : string)
| NoDataFound (building_num : Z).

Inductive event : Type :=
| Mkdir (p : path)
| WriteFile (p : path) (content : string)
| Say (d : diag).

(** The messages that report a skipped meter or building. *)
Definition is_skip_diag (ev : event) : bool :=
  match ev with
  | Say (NoElecGroup _) | Say (NoTable _) | Say (EmptyTable _)
  | Say (NoPowerValues _) | Say (CouldNotReadTable _)
  | Say (CouldNotProcess _ _) => true
  | _ => false
  end.

Definition is_write (ev : event) : bool :=
  match ev with
  | WriteFile _ _ => true
  | _ => false
  end.

(** Lookup in a list of named things: the first entry of that name. *)
Fixpoint lookup {A : Type} (key : string) (l : list (string * A)) : option A :=
  match l with
  | [] => None
  | (k, a) :: l' => if String.eqb k key then Some a else lookup key l'
  end.

Definition has_key {A : Type} (key : string) (l : list (string * A)) : bool :=
  match lookup key l with
  | Some _ => true
  | None => false
  end.

Open Scope list_scope.
Set Warnings "-register-all".

(** ** The container as h5py shows it

    A node is a group with named members, in the order in which h5py
    iterates over them, or a dataset.  [ds_probe] is what Python's
    [name in dataset] does for a text [name]: h5py datasets define no
    [__contains__], so the rows are iterated and compared, which either finds
    nothing ([None]) or raises.  [ds_read] is what slicing the dataset
    ([table[:10]], [table[:]]) gives. *)

Record recarray : Type := {
  nrows : nat;
  (** the fields of a structured array, in the order of [dtype.names];
      [None] for an array whose dtype is not structured *)
  fields : option (list (string * ndarray))
}.

Inductive h5node : Type :=
| Group (members : list (string * h5node))
| Dataset (ds_probe : option exn) (ds_read : outcome recarray).

Definition h5group : Type := list (string * h5node).

(** [name in node] *)
Definition h5_contains (name : string) (node : h5node) : outcome bool :=
  match node with
  | Group members => Ok (has_key name members)
  | Dataset None _ => Ok false
  | Dataset (Some e) _ => Raise e
  end.

(** [node[name]]; a dataset has no field access by a name that is not one of
    a compound type's fields. *)
Definition h5_getitem (name : string) (node : h5node) : outcome h5node :=
  match node with
  | Group members => or_raise KeyError (lookup name members)
  | Dataset _ _ => Raise ValueError
  end.

(** [table[:]] *)
Definition h5_read (node : h5node) : outcome recarray :=
  match node with
  | Group _ => Raise TypeError
  | Dataset _ rd => rd
  end.

(** [data[name]] on the array read from a table *)
Definition field (name : string) (data : recarray) : outcome ndarray :=
  match fields data with
  | None => Raise IndexError
  | Some fs => or_raise ValueError (lookup name fs)
  end.

Definition dtype_names (data : recarray) : list string :=
  match fields data with
  | None => []
  | Some fs => map fst fs
  end.

(** ** The h5py based converter ([convert_redd_h5_to_dat.py]) *)

Module Primary.

(** [[name for name in data.dtype.names if 'value' in name.lower()]] *)
Definition value_cols (names : list string) : list string :=
  filter (fun name => PyStr.contains "value" (PyStr.lower name)) names.

(** How the inner [try] block is left without an exception: by a [continue]
    after a message, or at its end with the two arrays. *)
Inductive table_read : Type :=
| Continue (d : diag)
| ReadDone (timestamps_seconds : int_array) (power_values : column).

(** [(timestamps / 1e9).astype(int)], for an array of any shape. *)
Definition timestamps_seconds (timestamps : ndarray) : outcome int_array :=
  match timestamps with
  | Arr1 c => xs <- div_1e9_astype_int c ;; Ok (Flat xs)
  | Arr2 _ cs =>
      if existsb (fun c => match c with Opaque _ => true | _ => false end) cs
      then Raise TypeError else Ok Matrix
  end.

(** The value column and its first sub-field (source lines 148-161);
    [None] is the branch that finds no column. *)
Definition power_values (data : recarray) : option (outcome column) :=
  if existsb (String.eqb "values_block_0") (dtype_names data) then
    Some (a <- field "values_block_0" data ;; first_subfield a)
  else
    match value_cols (dtype_names data) with
    | c :: _ => Some (a <- field c data ;; first_subfield a)
    | [] => None
    end.

(** The inner [try] block (source lines 134-164). *)
Definition read_table (meter_key : string) (table : h5node) : outcome table_read :=
  sample <- h5_read table ;;
  if Nat.eqb (Nat.min 10 (nrows sample)) 0 then Ok (Continue (EmptyTable meter_key))
  else
    data <- h5_read table ;;
    timestamps <- field "index" data ;;
    match power_values data with
    | None => Ok (Continue (NoPowerValues meter_key))
    | Some pv =>
        power <- pv ;;
        ts <- timestamps_seconds timestamps ;;
        Ok (ReadDone ts power)
    end.

(** What one pass through the body of the meter loop leaves behind: the
    events, and the line appended to [labels_data] if any. *)
Definition meter_effect : Type := (list event * option string)%type.

(** The body of the outer [try] block (source lines 121-188). *)
Definition meter_body (house_num meter_key : string) (elec_group : h5group)
  : outcome meter_effect :=
  meter_data <- or_raise KeyError (lookup meter_key elec_group) ;;
  meter_num <- or_raise ValueError (PyStr.to_int (PyStr.remove "meter" meter_key)) ;;
  has_table <- h5_contains "table" meter_data ;;
  if negb has_table then Ok ([Say (NoTable meter_key)], None)
  else
    table <- h5_getitem "table" meter_data ;;
    match read_table meter_key table with
    | Raise read_error => Ok ([Say (CouldNotReadTable read_error)], None)
    | Ok (Continue d) => Ok ([Say d], None)
    | Ok (ReadDone ts pv) =>
        power <- astype_float pv ;;
        rows <- dataframe_rows ts power ;;
        Ok ([WriteFile (ChannelFile house_num meter_num) (to_csv rows);
             Say (CreatedChannel meter_num (appliance_name meter_num) (column_len pv))],
            Some (label_line meter_num))
    end.

(** One iteration of the meter loop (source lines 113-192). *)
Definition process_meter (house_num : string) (elec_group : h5group) (meter_key : string)
  : meter_effect :=
  if String.eqb meter_key "cache" then ([], None)
  else if negb (PyStr.startswith meter_key "meter") then ([], None)
  else
    match meter_body house_num meter_key elec_group with
    | Ok r => r
    | Raise e => ([Say (CouldNotProcess meter_key e)], None)
    end.

(** The meter loop: the events and [labels_data], in order. *)
Fixpoint meters_loop (house_num : string) (elec_group : h5group) (keys : list string)
  : list event * list string :=
  match keys with
  | [] => ([], [])
  | meter_key :: keys' =>
      let '(evs, label) := process_meter house_num elec_group meter_key in
      let '(evs', labels) := meters_loop house_num elec_group keys' in
      (evs ++ evs', match label with Some l => l :: labels | None => labels end)
  end.

(** The variable [f]: the open container, and, once a label file has been
    written by [with open(labels_file, 'w') as f], that closed text file. *)
Inductive f_binding : Type :=
| H5File (root : h5group)
| ClosedTextFile.

Record state : Type := {
  f : f_binding;
  processed_houses : nat
}.

(** One iteration of the building loop (source lines 91-200). *)
Definition process_house (st : state) (house_key : string) : list event * outcome state :=
  if negb (PyStr.startswith house_key "building") then ([], Ok st)
  else
    let ev0 := [Say (ProcessingHouse house_key)] in
    match f st with
    | ClosedTextFile => (ev0, Raise TypeError)
    | H5File root =>
        match lookup house_key root with
        | None => (ev0, Raise KeyError)
        | Some house_data =>
            let house_num := PyStr.remove "building" house_key in
            let ev1 := ev0 ++ [Mkdir (HouseDir house_num)] in
            match h5_contains "elec" house_data with
            | Raise e => (ev1, Raise e)
            | Ok false => (ev1 ++ [Say (NoElecGroup house_key)], Ok st)
            | Ok true =>
                match h5_getitem "elec" house_data with
                | Raise e => (ev1, Raise e)
                | Ok (Dataset _ _) => (ev1, Raise AttributeError)
                | Ok (Group elec_group) =>
                    let '(evs, labels_data) :=
                      meters_loop house_num elec_group (map fst elec_group) in
                    match labels_data with
                    | [] => (ev1 ++ evs, Ok st)
                    | _ :: _ =>
                        (ev1 ++ evs ++
                         [WriteFile (LabelsFile house_num) (PyStr.join_lines labels_data);
                          Say (CreatedLabels (List.length labels_data))],
                         Ok {| f := ClosedTextFile;
                               processed_houses := S (processed_houses st) |})
                    end
                end
            end
        end
    end.

(** The building loop; an exception ends it. *)
Fixpoint houses_loop (st : state) (keys : list string) : list event * outcome state :=
  match keys with
  | [] => ([], Ok st)
  | house_key :: keys' =>
      match process_house st house_key with
      | (evs, Ok st') =>
          let '(evs', r) := houses_loop st' keys' in (evs ++ evs', r)
      | (evs, Raise e) => (evs, Raise e)
      end
  end.

(** [convert_h5_to_dat_format(h5_file_path, output_dir)] on an opened
    container: the events, and the number of processed houses it reports, or
    the exception that leaves the function. *)
Definition convert_h5_to_dat_format (root : h5group) : list event * outcome nat :=
  let ev0 := [Say Banner; Mkdir OutputDir; Say ProcessingHouses] in
  match houses_loop {| f := H5File root; processed_houses := 0 |} (map fst root) with
  | (evs, Ok st) =>
      (ev0 ++ evs ++ [Say (ConversionComplete (processed_houses st))],
       Ok (processed_houses st))
  | (evs, Raise e) => (ev0 ++ evs, Raise e)
  end.

End Primary.

(** ** The container as [pandas.HDFStore] shows it

    The store is seen through the node paths it holds and, for each, what
    [store[path]] gives: an exception, a [DataFrame] or a [Series].  A
    [DataFrame] is seen through [len(data)], [data.index.values], and its
    column labels in order, each with [data[label].values]. *)

Inductive col_label : Type :=
| LStr (s : string)
| LTuple (items : list string)
| LInt (n : Z).

Record dataframe : Type := {
  df_len : nat;
  df_index : ndarray;
  df_columns : list (col_label * ndarray)
}.

Inductive stored : Type :=
| Unreadable (e : exn)
| Frame (data : dataframe)
| Series (len : nat).

Definition hdfstore : Type := list (string * stored).

Definition label_eqb (a b : col_label) : bool :=
  match a, b with
  | LStr s, LStr s' => String.eqb s s'
  | LTuple l, LTuple l' => if list_eq_dec String.string_dec l l' then true else false
  | LInt n, LInt n' => Z.eqb n n'
  | _, _ => false
  end.

Fixpoint column_of (label : col_label) (cols : list (col_label * ndarray)) : option ndarray :=
  match cols with
  | [] => None
  | (l, a) :: cols' => if label_eqb l label then Some a else column_of label cols'
  end.

(** ** The pandas based converter ([convert_redd_h5_to_dat_pytables.py]) *)

Module Fallback.

(** [f'/building{building_num}/elec/meter{meter_num}/table'] *)
Definition meter_key (building_num meter_num : Z) : string :=
  ("/building" ++ PyStr.of_int building_num ++ "/elec/meter" ++
   PyStr.of_int meter_num ++ "/table")%string.

(** ['values_block' in col or 'power' in col.lower()] *)
Definition is_power_label (col : col_label) : outcome bool :=
  match col with
  | LStr s =>
      Ok (PyStr.contains "values_block" s || PyStr.contains "power" (PyStr.lower s))
  | LTuple items =>
      if existsb (String.eqb "values_block") items then Ok true
      else Raise AttributeError
  | LInt _ => Raise TypeError
  end.

(** The [for col in data.columns] search (source lines 87-91). *)
Fixpoint find_power_col (cols : list col_label) : outcome (option col_label) :=
  match cols with
  | [] => Ok None
  | col :: cols' =>
      b <- is_power_label col ;;
      if b then Ok (Some col) else find_power_col cols'
  end.

(** [[col for col in data.columns if col != 'index']] *)
Definition non_index_cols (cols : list col_label) : list col_label :=
  filter (fun col => negb (label_eqb col (LStr "index"))) cols.

(** [isinstance(data.columns, pd.MultiIndex)]: the labels of a
    [MultiIndex] are tuples, one component for each level, and the frame
    whose labels are all tuples is the frame with such an index; any other
    list of labels is a flat index. *)
Definition is_tuple (col : col_label) : bool :=
  match col with
  | LTuple _ => true
  | _ => false
  end.

Definition multi_level (cols : list col_label) : bool :=
  match cols with
  | [] => false
  | _ :: _ => forallb is_tuple cols
  end.

(** Under a [MultiIndex] a key that is not a tuple is looked up in the first
    level: it selects every label that starts with it. *)
Definition first_level_is (key : string) (col : col_label) : bool :=
  match col with
  | LTuple (x :: _) => String.eqb x key
  | _ => false
  end.

(** The levels after the first are place holders: there is one at least and
    each is the empty string. *)
Definition placeholder_levels (col : col_label) : bool :=
  match col with
  | LTuple (_ :: ((_ :: _) as rest)) => forallb (String.eqb "") rest
  | _ => false
  end.

Definition columns_of (a : ndarray) : list column :=
  match a with
  | Arr1 c => [c]
  | Arr2 _ cs => cs
  end.

(** [data['index'].values], or [None] where ['index' in data.columns] is
    false; the membership test and the selection look the key up in the same
    way.  Under a flat index the key is a label and the result is the column
    of that label.  Under a [MultiIndex] the key selects the columns whose
    label starts with it and the result is the frame of these columns, whose
    [values] are two-dimensional, with one exception: a single selected column
    whose other levels are place holders is returned as a [Series], whose
    [values] are the column. *)
Definition index_column (data : dataframe) : option ndarray :=
  if multi_level (map fst (df_columns data)) then
    match filter (fun c => first_level_is "index" (fst c)) (df_columns data) with
    | [] => None
    | [(col, a)] =>
        if placeholder_levels col then Some a
        else Some (Arr2 (df_len data) (columns_of a))
    | selected =>
        Some (Arr2 (df_len data) (flat_map (fun c => columns_of (snd c)) selected))
    end
  else column_of (LStr "index") (df_columns data).


(** Source lines 81-84. *)
Definition timestamps_of (data : dataframe) : ndarray :=
  match index_column data with
  | Some a => a
  | None => df_index data
  end.

(** Source lines 87-99; [Ok None] is the [continue] of line 99. *)
Definition power_col (data : dataframe) : outcome (option col_label) :=
  found <- find_power_col (map fst (df_columns data)) ;;
  match found with
  | Some col => Ok (Some col)
  | None =>
      match non_index_cols (map fst (df_columns data)) with
      | col :: _ => Ok (Some col)
      | [] => Ok None
      end
  end.

(** [xs.max()] on integers; the empty array raises. *)
Definition max_int (xs : list Z) : outcome Z :=
  match xs with
  | [] => Raise ValueError
  | x :: xs' => Ok (fold_left Z.max xs' x)
  end.

(** [xs.max()] on floats: NaN if any element is NaN. *)
Definition fmax (a b : F64.t) : F64.t :=
  match a, b with
  | S754_nan, _ => S754_nan
  | _, S754_nan => S754_nan
  | _, _ => if SFltb a b then b else a
  end.

Definition max_float (xs : list F64.t) : outcome F64.t :=
  match xs with
  | [] => Raise ValueError
  | x :: xs' => Ok (fold_left fmax xs' x)
  end.

(** Source lines 108-111 on a one-dimensional array. *)
Definition rescale (timestamps : column) : outcome (list Z) :=
  match timestamps with
  | Ints xs =>
      m <- max_int xs ;;
      if F64.gtb (F64.of_Z m) F64.c1e12
      then Ok (map ns_to_seconds xs)
      else Ok xs
  | Floats xs =>
      m <- max_float xs ;;
      if F64.gtb m F64.c1e12
      then Ok (map (fun x => F64.to_int64 (F64.div x F64.c1e9)) xs)
      else Ok (map F64.to_int64 xs)
  | Opaque _ => Raise TypeError
  end.

(** Source lines 108-111 on an array of any shape; the result of a
    two-dimensional array is again two-dimensional. *)
Definition rescale_array (timestamps : ndarray) : outcome int_array :=
  match timestamps with
  | Arr1 c => xs <- rescale c ;; Ok (Flat xs)
  | Arr2 _ cs =>
      if existsb (fun c => match c with Opaque _ => true | _ => false end) cs
      then Raise TypeError
      else match cs with
           | [] => Raise ValueError
           | _ :: _ => Ok Matrix
           end
  end.

Definition stored_len (s : stored) : outcome nat :=
  match s with
  | Unreadable e => Raise e
  | Frame data => Ok (df_len data)
  | Series n => Ok n
  end.

Definition meter_effect : Type := (list event * option string)%type.

(** The part of the [try] block after the "Found data" message (source
    lines 80-132); [Ok None] is the [continue] of line 99. *)
Definition convert_frame (building_num meter_num : Z) (s : stored)
  : outcome (option (list event * string)) :=
  match s with
  | Unreadable e => Raise e
  | Series _ => Raise AttributeError
  | Frame data =>
      let timestamps := timestamps_of data in
      col <- power_col data ;;
      match col with
      | None => Ok None
      | Some c =>
          values <- or_raise KeyError (column_of c (df_columns data)) ;;
          power_values <- first_subfield values ;;
          ts <- rescale_array timestamps ;;
          power <- astype_float power_values ;;
          rows <- dataframe_rows ts power ;;
          Ok (Some
                ([WriteFile (ChannelFile (PyStr.of_int building_num) meter_num) (to_csv rows);
                  Say (CreatedChannelFor meter_num (appliance_name meter_num))],
                 label_line meter_num))
      end
  end.

(** The body of the [try] block (source lines 71-132): what it prints and
    writes, and how it ends: with the line appended to [labels_data] (if
    any), or with an exception. *)
Definition meter_body (store : hdfstore) (building_num meter_num : Z)
  : list event * outcome (option string) :=
  match lookup (meter_key building_num meter_num) store with
  | None => ([], Ok None)
  | Some s =>
      match stored_len s with
      | Raise e => ([], Raise e)
      | Ok n =>
          if Nat.eqb n 0 then ([], Ok None)
          else
            match convert_frame building_num meter_num s with
            | Raise e => ([Say (FoundData meter_num n)], Raise e)
            | Ok None => ([Say (FoundData meter_num n)], Ok None)
            | Ok (Some (evs, label)) => (Say (FoundData meter_num n) :: evs, Ok (Some label))
            end
      end
  end.

(** One iteration of the meter loop (source lines 67-136): the handler
    prints nothing and goes on. *)
Definition process_meter (store : hdfstore) (building_num meter_num : Z) : meter_effect :=
  let '(evs, r) := meter_body store building_num meter_num in
  (evs, match r with
        | Ok label => label
        | Raise _ => None
        end).

(** The loop state of one building. *)
Record meters_state : Type := {
  labels_data : list string;
  channels_created : nat
}.

Fixpoint meters_loop (store : hdfstore) (building_num : Z) (meter_nums : list Z)
  (st : meters_state) : list event * meters_state :=
  match meter_nums with
  | [] => ([], st)
  | meter_num :: rest =>
      let '(evs, label) := process_meter store building_num meter_num in
      let st' := match label with
                 | Some l => {| labels_data := labels_data st ++ [l];
                                channels_created := S (channels_created st) |}
                 | None => st
                 end in
      let '(evs', st'') := meters_loop store building_num rest st' in
      (evs ++ evs', st'')
  end.

(** [range(a, b)] *)
Definition range (a b : Z) : list Z :=
  map (fun i => a + Z.of_nat i) (seq 0 (Z.to_nat (b - a))).

(** One iteration of the building loop (source lines 55-146): the events
    and the new value of [processed_houses]. *)
Definition process_building (store : hdfstore) (processed_houses : nat) (building_num : Z)
  : list event * nat :=
  let ev0 := [Say (ProcessingBuilding building_num);
              Mkdir (HouseDir (PyStr.of_int building_num))] in
  let '(evs, st) :=
    meters_loop store building_num (range 1 30)
      {| labels_data := []; channels_created := 0 |} in
  match labels_data st with
  | _ :: _ =>
      (ev0 ++ evs ++
       [WriteFile (LabelsFile (PyStr.of_int building_num)) (PyStr.join_lines (labels_data st));
        Say (CreatedLabels (List.length (labels_data st)))],
       S processed_houses)
  | [] => (ev0 ++ evs ++ [Say (NoDataFound building_num)], processed_houses)
  end.

Fixpoint buildings_loop (store : hdfstore) (processed_houses : nat) (building_nums : list Z)
  : list event * nat :=
  match building_nums with
  | [] => ([], processed_houses)
  | building_num :: rest =>
      let '(evs, n) := process_building store processed_houses building_num in
      let '(evs', n') := buildings_loop store n rest in
      (evs ++ evs', n')
  end.

(** [convert_h5_to_dat_pytables(h5_file_path, output_dir)] on an opened
    store: the events, the final [processed_houses] and the value returned. *)
Definition convert_h5_to_dat_pytables (store : hdfstore) : list event * nat * bool :=
  let '(evs, n) := buildings_loop store 0 (range 1 7) in
  ([Say Banner; Mkdir OutputDir; Say AvailableKeys] ++ evs ++ [Say (ConversionComplete n)],
   n, Nat.ltb 0 n).

End Fallback.

(** ** Reading an event log *)

(** The output tree after a run: the content of the file whose path has the
    text [name], as the last write to it left it. *)
Fixpoint file_content (log : list event) (name : string) : option string :=
  match log with
  | [] => None
  | ev :: log' =>
      match file_content log' name with
      | Some c => Some c
      | None =>
          match ev with
          | WriteFile p c => if String.eqb (path_text p) name then Some c else None
          | _ => None
          end
      end
  end.

(** Whether the directory of that name was made. *)
Definition dir_made (log : list event) (name : string) : bool :=
  existsb (fun ev => match ev with
                     | Mkdir p => String.eqb (path_text p) name
                     | _ => false
                     end) log.

(** The meter numbers of the channel files written into a house directory,
    in order. *)
Definition channel_of (house : string) (ev : event) : list Z :=
  match ev with
  | WriteFile (ChannelFile h m) _ => if String.eqb h house then [m] else []
  | _ => []
  end.

Definition channels_written (log : list event) (house : string) : list Z :=
  flat_map (channel_of house) log.

(** The texts written to the label file of a house directory, in order. *)
Definition labels_of (house : string) (ev : event) : list string :=
  match ev with
  | WriteFile (LabelsFile h) c => if String.eqb h house then [c] else []
  | _ => []
  end.

Definition labels_written (log : list event) (house : string) : list string :=
  flat_map (labels_of house) log.

(** The number of label files written. *)
Definition is_labels_write (ev : event) : bool :=
  match ev with
  | WriteFile (LabelsFile _) _ => true
  | _ => false
  end.

Definition label_files (log : list event) : nat :=
  List.length (filter is_labels_write log).

(** Reading a label file back: [content.split(sep)], and the meter number in
    front of the first space of each line. *)
Fixpoint split_on (sep : ascii) (s : string) : list string :=
  match s with
  | EmptyString => [EmptyString]
  | String c s' =>
      if Ascii.eqb c sep then EmptyString :: split_on sep s'
      else match split_on sep s' with
           | l :: ls => String c l :: ls
           | [] => [String c EmptyString]
           end
  end.

Definition lines (content : string) : list string :=
  split_on (ascii_of_nat 10) content.

Definition label_file_ids (content : string) : list (option Z) :=
  map (fun line => PyStr.to_int (hd EmptyString (split_on " " line))) (lines content).

(** The label file of a house directory agrees with its channel files: if
    no channel file was written, no label file was written; otherwise the
    label file was written once, and read back it has one line per channel
    file written, with the same meter numbers in the same order. *)
Definition labels_agree (log : list event) (house : string) : Prop :=
  match channels_written log house with
  | [] => labels_written log house = []
  | ids =>
      exists content,
        labels_written log house = [content] /\
        content = PyStr.join_lines (map label_line ids) /\
        List.length (lines content) = List.length ids /\
        label_file_ids content = map Some ids
  end.


(** ** The end-to-end scenario *)

Module Scenario.

(** 12.5 = 25 * 2^-1 *)
Definition f12_5 : F64.t := S754_finite false 7036874417766400 (-49).
Definition f0 : F64.t := S754_zero false.

(** The table with the rows [(1_000_000_000_000, 12.5)] and
    [(2_000_000_000_000, 0.0)]; [values] is the value field, either
    one-dimensional or of shape [(2, 1)]. *)
Definition table (values : ndarray) : h5node :=
  Dataset None
    (Ok {| nrows := 2;
           fields := Some [("index", Arr1 (Ints [1000000000000; 2000000000000]));
                           ("values_block_0", values)] |}).

Definition container (values : ndarray) : h5group :=
  [("building3", Group [("elec", Group [("meter5", Group [("table", table values)])])])].

Definition flat_values : ndarray := Arr1 (Floats [f12_5; f0]).
Definition block_values : ndarray := Arr2 2 [Floats [f12_5; f0]].

Definition channel_text : string :=
  ("1000 12.5" ++ PyStr.newline ++ "2000 0.0" ++ PyStr.newline)%string.

Definition unterminated_channel_text : string :=
  ("1000 12.5" ++ PyStr.newline ++ "2000 0.0")%string.

(** A container with two buildings: the first has one meter with a table of
    one row, the second has no [elec] group. *)
Definition two_buildings : h5group :=
  [("building1",
    Group [("elec",
            Group [("meter1",
                    Group [("table",
                            Dataset None
                              (Ok {| nrows := 1;
                                     fields := Some [("index", Arr1 (Ints [1000000000]));
                                                     ("values_block_0", Arr1 (Floats [f0]))] |}))])])]);
   ("building2", Group [])].


(** A store with one frame, for meter 5 of building 3, with the two rows of
    the scenario and no column labelled "index". *)
Definition one_meter_frame : dataframe :=
  {| df_len := 2;
     df_index := Arr1 (Ints [1000000000000; 2000000000000]);
     df_columns := [(LStr "power", Arr1 (Floats [f12_5; f0]))] |}.

Definition one_meter_store : hdfstore :=
  [("/building3/elec/meter5/table", Frame one_meter_frame)].





End Scenario.

(** ** The vocabulary of the properties *)

(** A log without writes. *)
Definition quiet (log : list event) : Prop := filter is_write log = [].

(** A log without channel files. *)
Definition quiet_channels_only (log : list event) : Prop :=
  forall h, channels_written log h = [].

(** The ways in which one pass through the meter loop of the h5py based
    converter ends: nothing is written and no label is recorded (at most one
    message, about the skipped meter, is printed), or a channel file is
    written and its label recorded. *)
Inductive meter_pass (house : string) : Primary.meter_effect -> Prop :=
| pass_silent : meter_pass house ([], None)
| pass_skipped d : is_skip_diag (Say d) = true -> meter_pass house ([Say d], None)
| pass_converted m content n :
    meter_pass house
      ([WriteFile (ChannelFile house m) content; Say (CreatedChannel m (appliance_name m) n)],
       Some (label_line m)).

(** The character [c] does not occur in [s]. *)
Fixpoint no_char (c : ascii) (s : string) : bool :=
  match s with
  | EmptyString => true
  | String c' s' => negb (Ascii.eqb c' c) && no_char c s'
  end.

(** Every character of [s] is an ASCII digit. *)
Fixpoint all_digits (s : string) : bool :=
  match s with
  | EmptyString => true
  | String c s' => PyStr.is_digit c && all_digits s'
  end.

(** The two ways in which one pass through the building loop ends.  Either
    nothing is written, and the state is kept or an exception leaves the
    loop; or the channel files of the meters [ids] and then the label file
    are written into one house directory, [f] is rebound to the closed
    label file, and the counter goes up by one. *)
Inductive house_pass (st : Primary.state) : list event -> outcome Primary.state -> Prop :=
| house_unwritten evs r :
    quiet evs -> (r = Ok st \/ exists e, r = Raise e) ->
    house_pass st evs r
| house_written evs house ids :
    ids <> [] ->
    (forall h, channels_written evs h = if String.eqb house h then ids else []) ->
    (forall h, labels_written evs h =
               if String.eqb house h then [PyStr.join_lines (map label_line ids)] else []) ->
    label_files evs = 1%nat ->
    (exists root, Primary.f st = Primary.H5File root) ->
    house_pass st evs
      (Ok {| Primary.f := Primary.ClosedTextFile;
             Primary.processed_houses := S (Primary.processed_houses st) |}).

(** The ways in which one pass through the meter loop of the pandas based
    converter ends: without a write and without a label, having printed
    nothing (no node, an empty table, or an exception at the read) or the
    "Found data" message only (no column, or an exception later); or with
    the channel file written and its label recorded. *)
Inductive fallback_pass (house : string) (meter_num : Z) : Fallback.meter_effect -> Prop :=
| fpass_nothing : fallback_pass house meter_num ([], None)
| fpass_found n : fallback_pass house meter_num ([Say (FoundData meter_num n)], None)
| fpass_converted n content :
    fallback_pass house meter_num
      ([Say (FoundData meter_num n);
        WriteFile (ChannelFile house meter_num) content;
        Say (CreatedChannelFor meter_num (appliance_name meter_num))],
       Some (label_line meter_num)).

(** A log that writes into one house directory only, and there the channel
    files and then, if there are any, the label file made of their lines. *)
Definition house_log (house : string) (log : list event) : Prop :=
  (forall h, h <> house -> channels_written log h = [] /\ labels_written log h = []) /\
  labels_written log house =
    match channels_written log house with
    | [] => []
    | ids => [PyStr.join_lines (map label_line ids)]
    end.

(** Whether the pass of the pandas based converter for a pair of a building
    and a meter records a label, and whether one of the 29 passes of a
    building does. *)
Definition fallback_converted (store : hdfstore) (b m : Z) : bool :=
  match snd (Fallback.process_meter store b m) with
  | Some _ => true
  | None => false
  end.

Definition building_converted (store : hdfstore) (b : Z) : bool :=
  existsb (fallback_converted store b) (Fallback.range 1 30).

(** The messages of the h5py based converter about a member that it leaves
    out. *)
Definition is_meter_diag (d : diag) : bool :=
  match d with
  | NoTable _ | EmptyTable _ | NoPowerValues _
  | CouldNotReadTable _ | CouldNotProcess _ _ => true
  | _ => false
  end.

(** ['values_block' in col or 'power' in col.lower()] for a label that is a
    string. *)
Definition is_power_name (s : string) : bool :=
  PyStr.contains "values_block" s || PyStr.contains "power" (PyStr.lower s).

(** The directories made, in order. *)
Definition dir_of (ev : event) : list path :=
  match ev with
  | Mkdir p => [p]
  | _ => []
  end.

Definition dirs_made (log : list event) : list path := flat_map dir_of log.

(** * Properties *)

(** ** The Python primitives on known values *)

Example to_int_samples :
  map PyStr.to_int ["5"; " 05 "; "1_0"; "-5"; "+7"; "_1"; "1__0"; "1_"; "X"; ""; "- 5"]%string
  = [Some 5; Some 5; Some 10; Some (-5); Some 7; None; None; None; None; None; None].
Proof. vm_compute. reflexivity. Qed.

Example remove_samples :
  map (PyStr.remove "building") ["building3"; "buildingbuilding3"; "building"]%string
  = ["3"; "3"; ""]%string.
Proof. vm_compute. reflexivity. Qed.

Example to_csv_text_samples :
  map FloatRepr.to_csv_text
    [F64.div (F64.of_Z 1) (F64.of_Z 10); Scenario.f12_5; F64.of_Z (-40);
     F64.div (F64.of_Z 1) (F64.of_Z 3); F64.of_Z 1000000000000000;
     F64.of_Z 10000000000000000; F64.div (F64.of_Z 1) (F64.of_Z 100000);
     F64.div (F64.of_Z 1) (F64.of_Z 10000); F64.of_Z 123456789012345678;
     S754_finite false 1 (-1074); S754_nan]
  = ["0.1"; "12.5"; "-40.0"; "0.3333333333333333"; "1000000000000000.0";
     "1e+16"; "1e-05"; "0.0001"; "1.2345678901234568e+17"; "5e-324"; ""]%string.
Proof. vm_compute. reflexivity. Qed.

Example ranges : Fallback.range 1 7 = [1; 2; 3; 4; 5; 6] /\
                 List.length (Fallback.range 1 30) = 29%nat.
Proof. split; vm_compute; reflexivity. Qed.

(** ** Float64 facts

    [SpecFloat] comes without lemmas; what the converters need of the
    rounding, of the division and of the comparison is proved here on the
    integers. *)

Module F64Facts.
Import F64.






























End F64Facts.

(** ** C1: the end-to-end scenario *)

(** C1 (as amended): on the container with the one building [building3], its
    one meter [meter5] and the two rows (1_000_000_000_000, 12.5) and
    (2_000_000_000_000, 0.0), the h5py based converter ends normally, reports
    one processed house, and leaves [house_3/channel_5.dat] with the text
    "1000 12.5\n2000 0.0\n" - each row, the last one too, ends with a line
    terminator - and [house_3/labels.dat] with the text "5 refrigerator".
    This holds for a one-dimensional value field and for one of shape (2, 1). *)
Theorem C1_scenario_files :
  forall values, In values [Scenario.flat_values; Scenario.block_values] ->
    let '(log, result) := Primary.convert_h5_to_dat_format (Scenario.container values) in
    result = Ok 1%nat /\
    file_content log "house_3/channel_5.dat" = Some Scenario.channel_text /\
    file_content log "house_3/labels.dat" = Some "5 refrigerator"%string /\
    filter is_write log =
      [WriteFile (ChannelFile "3" 5) Scenario.channel_text;
       WriteFile (LabelsFile "3") "5 refrigerator"%string].
Proof.
  intros values [<- | [<- | []]]; vm_compute; repeat split; reflexivity.
Qed.

Lemma C1_scenario_files_witness :
  let '(log, result) :=
    Primary.convert_h5_to_dat_format (Scenario.container Scenario.block_values) in
  result = Ok 1%nat /\
  file_content log "house_3/channel_5.dat" = Some Scenario.channel_text /\
  file_content log "house_3/labels.dat" = Some "5 refrigerator"%string /\
  filter is_write log =
    [WriteFile (ChannelFile "3" 5) Scenario.channel_text;
     WriteFile (LabelsFile "3") "5 refrigerator"%string].
Proof.
  apply (C1_scenario_files Scenario.block_values). simpl. right. left. reflexivity.
Defined.

(** C1 (as stated) fails: the channel file does not hold exactly
    "1000 12.5\n2000 0.0"; the text written has one more character, the line
    terminator of the last row. *)
Lemma C1_channel_text_has_final_newline :
  file_content (fst (Primary.convert_h5_to_dat_format (Scenario.container Scenario.block_values)))
    "house_3/channel_5.dat" <> Some Scenario.unterminated_channel_text
  /\ file_content (fst (Primary.convert_h5_to_dat_format (Scenario.container Scenario.block_values)))
    "house_3/channel_5.dat" = Some (Scenario.unterminated_channel_text ++ PyStr.newline)%string.
Proof.
  split; vm_compute; [discriminate | reflexivity].
Qed.

(** ** Shared facts about logs *)

Lemma channels_written_app log1 log2 h :
  channels_written (log1 ++ log2) h = channels_written log1 h ++ channels_written log2 h.
Proof. apply flat_map_app. Qed.

Lemma labels_written_app log1 log2 h :
  labels_written (log1 ++ log2) h = labels_written log1 h ++ labels_written log2 h.
Proof. apply flat_map_app. Qed.

Lemma label_files_app log1 log2 :
  label_files (log1 ++ log2) = (label_files log1 + label_files log2)%nat.
Proof. unfold label_files. now rewrite filter_app, length_app. Qed.

Lemma quiet_app log1 log2 : quiet log1 -> quiet log2 -> quiet (log1 ++ log2).
Proof. unfold quiet. intros H1 H2. now rewrite filter_app, H1, H2. Qed.

Lemma quiet_channels log h : quiet log -> channels_written log h = [].
Proof.
  unfold quiet. induction log as [|ev log IH]; simpl; [reflexivity|].
  destruct ev; simpl; try discriminate; auto.
Qed.

Lemma quiet_labels log h : quiet log -> labels_written log h = [].
Proof.
  unfold quiet. induction log as [|ev log IH]; simpl; [reflexivity|].
  destruct ev; simpl; try discriminate; auto.
Qed.

Lemma quiet_label_files log : quiet log -> label_files log = 0%nat.
Proof.
  unfold quiet, label_files. induction log as [|ev log IH]; simpl; [reflexivity|].
  destruct ev as [p|p c|d]; simpl; try discriminate; auto.
Qed.

(** ** The meter loop of the h5py based converter *)

Lemma read_table_continue key table d :
  Primary.read_table key table = Ok (Primary.Continue d) ->
  d = EmptyTable key \/ d = NoPowerValues key.
Proof.
  unfold Primary.read_table, bind.
  destruct (h5_read table) as [sample|e]; [|discriminate].
  destruct (Nat.eqb _ _); [intros [= <-]; now left|].
  destruct (field "index" sample); [|discriminate].
  destruct (Primary.power_values sample) as [[pv|e]|]; try discriminate.
  - destruct (Primary.timestamps_seconds a); discriminate.
  - intros [= <-]; now right.
Qed.

Lemma primary_process_meter_pass house elec key :
  meter_pass house (Primary.process_meter house elec key).
Proof.
  unfold Primary.process_meter.
  destruct (String.eqb key "cache"); [constructor|].
  destruct (negb _); [constructor|].
  destruct (Primary.meter_body house key elec) as [r|e] eqn:Hbody;
    [|now constructor].
  revert Hbody. unfold Primary.meter_body, bind.
  destruct (or_raise KeyError _) as [meter_data|]; [|discriminate].
  destruct (or_raise ValueError _) as [meter_num|]; [|discriminate].
  destruct (h5_contains "table" meter_data) as [[|]|]; simpl; try discriminate.
  - destruct (h5_getitem "table" meter_data) as [table|]; [|discriminate].
    destruct (Primary.read_table key table) as [[d|ts pv]|e] eqn:Hread.
    + intros [= <-]. constructor.
      destruct (read_table_continue _ _ _ Hread) as [-> | ->]; reflexivity.
    + destruct (astype_float pv) as [power|]; [|discriminate].
      destruct (dataframe_rows ts power) as [rows|]; [|discriminate].
      intros [= <-]. constructor.
    + intros [= <-]. now constructor.
  - intros [= <-]. now constructor.
Qed.

(** The meter loop records one label per channel file written, in the same
    order, writes into its own house directory only, and writes no label
    file. *)
Lemma primary_meters_loop_labels house elec keys :
  let '(evs, labels) := Primary.meters_loop house elec keys in
  labels = map label_line (channels_written evs house) /\
  (forall h, h <> house -> channels_written evs h = []) /\
  (forall h, labels_written evs h = []) /\
  label_files evs = 0%nat.
Proof.
  induction keys as [|key keys IH]; simpl.
  - repeat split; reflexivity.
  - pose proof (primary_process_meter_pass house elec key) as Hpass.
    destruct (Primary.process_meter house elec key) as [evs label].
    destruct (Primary.meters_loop house elec keys) as [evs' labels].
    cbv beta iota in IH. destruct IH as (IH1 & IH2 & IH3 & IH4).
    inversion Hpass; subst; simpl.
    + repeat split; auto.
    + repeat split; auto.
    + rewrite String.eqb_refl. simpl. repeat split; auto.
      intros h Hh. destruct (String.eqb_spec house h); [congruence|]. simpl. auto.
Qed.

(** A pass that records no label writes nothing. *)
Lemma primary_meters_loop_quiet house elec keys :
  snd (Primary.meters_loop house elec keys) = [] ->
  quiet (fst (Primary.meters_loop house elec keys)).
Proof.
  induction keys as [|key keys IH]; simpl; [reflexivity|].
  pose proof (primary_process_meter_pass house elec key) as Hpass.
  destruct (Primary.process_meter house elec key) as [evs label].
  destruct (Primary.meters_loop house elec keys) as [evs' labels].
  simpl in *. inversion Hpass; subst; simpl; intros H; try discriminate; auto.
Qed.

(** ** Reading a label file back *)

Lemma no_char_app c s1 s2 :
  no_char c (s1 ++ s2)%string = no_char c s1 && no_char c s2.
Proof.
  induction s1 as [|c1 s1 IH]; simpl; [reflexivity|].
  now rewrite IH, andb_assoc.
Qed.

Lemma split_on_nonempty sep s : split_on sep s <> [].
Proof.
  destruct s as [|c s]; simpl; [discriminate|].
  destruct (Ascii.eqb c sep); [discriminate|].
  destruct (split_on sep s); discriminate.
Qed.

Lemma split_on_no_sep sep s : no_char sep s = true -> split_on sep s = [s].
Proof.
  induction s as [|c s IH]; simpl; [reflexivity|].
  destruct (Ascii.eqb c sep); simpl; [discriminate|].
  intros H. now rewrite (IH H).
Qed.

Lemma split_on_first sep a b :
  no_char sep a = true ->
  split_on sep (a ++ String sep b)%string = a :: split_on sep b.
Proof.
  induction a as [|c a IH]; simpl.
  - now rewrite Ascii.eqb_refl.
  - destruct (Ascii.eqb c sep); simpl; [discriminate|].
    intros H. now rewrite (IH H).
Qed.

Lemma join_lines_cons l ls :
  ls <> [] ->
  PyStr.join_lines (l :: ls) = (l ++ String (ascii_of_nat 10) (PyStr.join_lines ls))%string.
Proof.
  destruct ls as [|l' ls]; [congruence|]. intros _. reflexivity.
Qed.

(** Lines without a line break are read back as they were joined. *)
Lemma lines_join_lines ls :
  ls <> [] ->
  Forall (fun l => no_char (ascii_of_nat 10) l = true) ls ->
  lines (PyStr.join_lines ls) = ls.
Proof.
  induction ls as [|l ls IH]; [congruence|].
  intros _ Hall. inversion Hall as [|? ? Hl Hls]; subst.
  destruct ls as [|l' ls].
  - simpl. now apply split_on_no_sep.
  - rewrite join_lines_cons by discriminate.
    unfold lines. rewrite split_on_first by assumption.
    f_equal. apply IH; [discriminate | assumption].
Qed.

Lemma string_of_uint_digits d : all_digits (NilEmpty.string_of_uint d) = true.
Proof. induction d; simpl; auto. Qed.

Lemma digits_body_digits s :
  all_digits s = true -> PyStr.digits_body true s = Some s.
Proof.
  induction s as [|c s IH]; simpl; [reflexivity|].
  intros H. apply andb_prop in H as [Hc Hs]. now rewrite Hc, (IH Hs).
Qed.

Lemma digit_not_space c : PyStr.is_digit c = true -> PyStr.is_space c = false.
Proof.
  unfold PyStr.is_digit, PyStr.is_space. intros H.
  apply andb_prop in H as [H1 H2].
  apply Nat.leb_le in H1.
  apply orb_false_iff; split; apply andb_false_iff.
  - right. apply Nat.leb_gt. lia.
  - right. apply Nat.leb_gt. lia.
Qed.

Lemma digit_not_sign c :
  PyStr.is_digit c = true -> Ascii.eqb c "-" = false /\ Ascii.eqb c "+" = false.
Proof.
  intros H. split; destruct (Ascii.eqb_spec c "-"), (Ascii.eqb_spec c "+");
    subst; try reflexivity; discriminate.
Qed.

(** The digits of a positive number are read back as that number. *)
Lemma unsigned_of_to_uint p :
  PyStr.unsigned_of (NilZero.string_of_uint (Pos.to_uint p)) = Some (Zpos p).
Proof.
  pose proof (Unsigned.to_uint_nonnil p) as Hnil.
  pose proof (string_of_uint_digits (Pos.to_uint p)) as Hdig.
  pose proof (NilZero.usu _ Hnil) as Husu.
  unfold PyStr.unsigned_of.
  assert (Hs : NilZero.string_of_uint (Pos.to_uint p)
               = NilEmpty.string_of_uint (Pos.to_uint p))
    by (destruct (Pos.to_uint p); [congruence | reflexivity ..]).
  rewrite Hs in *.
  destruct (NilEmpty.string_of_uint (Pos.to_uint p)) as [|c s] eqn:Hstr.
  - destruct (Pos.to_uint p); simpl in Hstr; congruence.
  - simpl in Hdig. apply andb_prop in Hdig as [Hc Hrest].
    cbn [PyStr.digits_body]. rewrite Hc, (digits_body_digits _ Hrest), Husu.
    f_equal. change (Z.of_uint (Pos.to_uint p)) with (Z.of_int (Z.to_int (Zpos p))).
    apply DecimalZ.of_to.
Qed.

Lemma first_digit_to_uint p :
  exists c s, NilZero.string_of_uint (Pos.to_uint p) = String c s /\ PyStr.is_digit c = true.
Proof.
  pose proof (Unsigned.to_uint_nonnil p) as Hnil.
  destruct (Pos.to_uint p); [congruence | simpl; eauto ..].
Qed.

(** [int(str(n)) = n] *)
Lemma to_int_of_int z : PyStr.to_int (PyStr.of_int z) = Some z.
Proof.
  destruct z as [|p|p]; [reflexivity| |].
  - unfold PyStr.of_int, PyStr.to_int. cbn [Z.to_int NilZero.string_of_int].
    destruct (first_digit_to_uint p) as (c & s & Hs & Hc).
    pose proof (unsigned_of_to_uint p) as Hu. rewrite Hs in *.
    cbn [PyStr.lstrip]. rewrite (digit_not_space _ Hc).
    destruct (digit_not_sign _ Hc) as [-> ->]. exact Hu.
  - unfold PyStr.of_int, PyStr.to_int. cbn [Z.to_int NilZero.string_of_int].
    cbn [PyStr.lstrip].
    change (PyStr.is_space "-") with false. cbn iota.
    rewrite Ascii.eqb_refl, unsigned_of_to_uint. reflexivity.
Qed.

Lemma of_int_no_char c z :
  PyStr.is_digit c = false -> Ascii.eqb "-" c = false ->
  no_char c (PyStr.of_int z) = true.
Proof.
  intros Hc Hm.
  assert (Hne : forall a, PyStr.is_digit a = true -> negb (Ascii.eqb a c) = true).
  { intros a Ha. apply negb_true_iff.
    destruct (Ascii.eqb_spec a c); [subst c; congruence | reflexivity]. }
  assert (Hd : forall d, no_char c (NilEmpty.string_of_uint d) = true).
  { induction d; cbn [no_char NilEmpty.string_of_uint]; auto;
      rewrite IHd, andb_true_r; apply Hne; reflexivity. }
  assert (Hz : forall d, no_char c (NilZero.string_of_uint d) = true).
  { intros d. destruct d; try apply Hd. cbn [no_char NilZero.string_of_uint].
    rewrite andb_true_r. apply Hne. reflexivity. }
  unfold PyStr.of_int. destruct z; cbn [Z.to_int NilZero.string_of_int no_char].
  - apply Hz.
  - apply Hz.
  - rewrite Hm. apply Hz.
Qed.

Lemma standard_name_no_char c m name :
  standard_redd_mapping m = Some name ->
  In c [ascii_of_nat 10; " "%char] -> no_char c name = true.
Proof.
  intros Hm [<- | [<- | []]];
    (destruct m as [|p|p]; simpl in Hm; try discriminate;
     do 5 (try match goal with
               | q : positive |- _ => destruct q; simpl in Hm; try discriminate
               end);
     injection Hm as <-; reflexivity).
Qed.

Lemma label_line_no_newline m : no_char (ascii_of_nat 10) (label_line m) = true.
Proof.
  unfold label_line, appliance_name.
  rewrite !no_char_app, of_int_no_char by reflexivity.
  destruct (standard_redd_mapping m) eqn:Hm.
  - now rewrite (standard_name_no_char (ascii_of_nat 10) m s Hm) by (simpl; auto).
  - now rewrite no_char_app, of_int_no_char by reflexivity.
Qed.

Lemma label_line_first_token m :
  hd EmptyString (split_on " " (label_line m)) = PyStr.of_int m.
Proof.
  unfold label_line.
  change (PyStr.of_int m ++ " " ++ appliance_name m)%string
    with (PyStr.of_int m ++ String " " (appliance_name m))%string.
  rewrite split_on_first by (apply of_int_no_char; reflexivity).
  reflexivity.
Qed.

(** A label file with the lines of the meters [ids], read back, gives one
    line per meter and the same meter numbers. *)
Lemma label_file_read_back ids :
  ids <> [] ->
  List.length (lines (PyStr.join_lines (map label_line ids))) = List.length ids /\
  label_file_ids (PyStr.join_lines (map label_line ids)) = map Some ids.
Proof.
  intros Hne.
  assert (Hlines : lines (PyStr.join_lines (map label_line ids)) = map label_line ids).
  { apply lines_join_lines.
    - destruct ids; [congruence | discriminate].
    - apply Forall_forall. intros l Hl. apply in_map_iff in Hl as (m & <- & _).
      apply label_line_no_newline. }
  unfold label_file_ids. rewrite Hlines, length_map, map_map. split; [reflexivity|].
  apply map_ext. intros m. now rewrite label_line_first_token, to_int_of_int.
Qed.

Lemma labels_agree_intro log house :
  labels_written log house =
    match channels_written log house with
    | [] => []
    | ids => [PyStr.join_lines (map label_line ids)]
    end ->
  labels_agree log house.
Proof.
  unfold labels_agree. destruct (channels_written log house) as [|m ids] eqn:Hch; [auto|].
  intros H. eexists. split; [exact H|]. split; [reflexivity|].
  apply label_file_read_back. discriminate.
Qed.

Lemma labels_agree_quiet log house : quiet log -> labels_agree log house.
Proof.
  intros H. apply labels_agree_intro.
  now rewrite quiet_channels, quiet_labels.
Qed.

(** ** The building loop of the h5py based converter *)

Lemma primary_process_house_pass st key :
  house_pass st (fst (Primary.process_house st key)) (snd (Primary.process_house st key)).
Proof.
  unfold Primary.process_house.
  destruct (negb _); [apply house_unwritten; [reflexivity | simpl; eauto]|].
  destruct (Primary.f st) as [root|] eqn:Hf;
    [|apply house_unwritten; [reflexivity | simpl; eauto]].
  destruct (lookup key root) as [house_data|];
    [|apply house_unwritten; [reflexivity | simpl; eauto]].
  destruct (h5_contains "elec" house_data) as [[|]|e];
    [|apply house_unwritten; [reflexivity | simpl; eauto] ..].
  destruct (h5_getitem "elec" house_data) as [[elec|probe rd]|e];
    [|apply house_unwritten; [reflexivity | simpl; eauto] ..].
  pose proof (primary_meters_loop_labels (PyStr.remove "building" key) elec (map fst elec)) as Hl.
  pose proof (primary_meters_loop_quiet (PyStr.remove "building" key) elec (map fst elec)) as Hq.
  destruct (Primary.meters_loop _ elec (map fst elec)) as [evs labels].
  destruct Hl as (Hl1 & Hl2 & Hl3 & Hl4). simpl in Hq.
  destruct labels as [|l labels].
  - apply house_unwritten; simpl; auto.
  - cbn [fst snd].
    apply house_written with (house := PyStr.remove "building" key)
                             (ids := channels_written evs (PyStr.remove "building" key)).
    + intros H. rewrite H in Hl1. discriminate.
    + intros h. rewrite !channels_written_app. simpl. rewrite app_nil_r.
      destruct (String.eqb_spec (PyStr.remove "building" key) h) as [<- | Hne];
        [reflexivity | apply Hl2; congruence].
    + intros h. rewrite !labels_written_app, Hl3. simpl.
      rewrite Hl1. destruct (String.eqb _ h); reflexivity.
    + rewrite !label_files_app, Hl4. reflexivity.
    + eauto.
Qed.

(** The loop invariant: as long as [f] is the container nothing has been
    written and the counter is zero when it started at zero; once [f] is
    rebound, the single house written is in agreement, and the counter
    counts the label files. *)
Lemma primary_houses_loop_after_rebind st keys :
  Primary.f st = Primary.ClosedTextFile ->
  quiet (fst (Primary.houses_loop st keys)) /\
  (snd (Primary.houses_loop st keys) = Ok st \/
   exists e, snd (Primary.houses_loop st keys) = Raise e).
Proof.
  intros Hf. induction keys as [|key keys IH]; simpl; [split; [reflexivity | now left]|].
  pose proof (primary_process_house_pass st key) as Hp.
  destruct (Primary.process_house st key) as [evs r]. simpl in Hp.
  inversion Hp as [? ? Hq Hr | ? ? ? ? ? ? ? [root Hroot]]; subst.
  - destruct Hr as [-> | [e ->]].
    + destruct (Primary.houses_loop st keys) as [evs' r']. simpl in *.
      destruct IH as [IH1 IH2]. split; [now apply quiet_app | exact IH2].
    + simpl. split; eauto.
  - congruence.
Qed.

Lemma primary_houses_loop_log st keys :
  (forall h, labels_agree (fst (Primary.houses_loop st keys)) h) /\
  (forall st', snd (Primary.houses_loop st keys) = Ok st' ->
     Primary.processed_houses st' =
     (Primary.processed_houses st + label_files (fst (Primary.houses_loop st keys)))%nat).
Proof.
  revert st. induction keys as [|key keys IH]; intros st; simpl.
  - split; [intros h; now apply labels_agree_quiet
           | intros st' [= <-]; unfold label_files; simpl; lia].
  - pose proof (primary_process_house_pass st key) as Hp.
    destruct (Primary.process_house st key) as [evs r]. simpl in Hp.
    inversion Hp as [? ? Hq Hr | ? house ids Hids Hch Hlab Hcount _]; subst.
    + destruct Hr as [-> | [e ->]].
      * specialize (IH st). destruct (Primary.houses_loop st keys) as [evs' r'].
        simpl in *. destruct IH as [IH1 IH2]. split.
        -- intros h. specialize (IH1 h). unfold labels_agree in *.
           now rewrite channels_written_app, labels_written_app,
             (quiet_channels _ _ Hq), (quiet_labels _ _ Hq).
        -- intros st' Hst'. rewrite label_files_app, (quiet_label_files _ Hq). now apply IH2.
      * simpl. split; [intros h; now apply labels_agree_quiet | discriminate].
    + match goal with |- context [Primary.houses_loop ?s keys] =>
        destruct (primary_houses_loop_after_rebind s keys eq_refl) as [Hq' Hr'];
        destruct (Primary.houses_loop s keys) as [evs' r']
      end.
      simpl in *. split.
      * intros h. apply labels_agree_intro.
        rewrite channels_written_app, labels_written_app,
          (quiet_channels _ _ Hq'), (quiet_labels _ _ Hq'), !app_nil_r, Hch, Hlab.
        destruct (String.eqb house h); [|reflexivity].
        destruct ids; [congruence | reflexivity].
      * intros st' Hst'. rewrite label_files_app, (quiet_label_files _ Hq'), Hcount.
        destruct Hr' as [-> | [e ->]]; [|discriminate].
        injection Hst' as <-. simpl. lia.
Qed.

(** ** The loops of the pandas based converter *)

Lemma fallback_convert_frame_some b m s evs label :
  Fallback.convert_frame b m s = Ok (Some (evs, label)) ->
  exists content,
    evs = [WriteFile (ChannelFile (PyStr.of_int b) m) content;
           Say (CreatedChannelFor m (appliance_name m))] /\
    label = label_line m.
Proof.
  unfold Fallback.convert_frame, bind.
  destruct s as [e|data|n]; try discriminate.
  destruct (Fallback.power_col data) as [[c|]|]; try discriminate.
  destruct (or_raise KeyError _) as [values|]; [|discriminate].
  destruct (first_subfield values) as [pv|]; [|discriminate].
  destruct (Fallback.rescale_array _) as [ts|]; [|discriminate].
  destruct (astype_float pv) as [power|]; [|discriminate].
  destruct (dataframe_rows ts power) as [rows|]; [|discriminate].
  intros [= <- <-]. eauto.
Qed.

Lemma fallback_process_meter_pass store b m :
  fallback_pass (PyStr.of_int b) m (Fallback.process_meter store b m).
Proof.
  unfold Fallback.process_meter, Fallback.meter_body.
  destruct (lookup _ store) as [s|]; [|constructor].
  destruct (Fallback.stored_len s) as [n|e]; [|constructor].
  destruct (Nat.eqb n 0); [constructor|].
  destruct (Fallback.convert_frame b m s) as [[[evs label]|]|e] eqn:Hc.
  - destruct (fallback_convert_frame_some _ _ _ _ _ Hc) as (content & -> & ->).
    constructor.
  - constructor.
  - constructor.
Qed.

Lemma fallback_meters_loop_labels store b nums st :
  let '(evs, st') := Fallback.meters_loop store b nums st in
  Fallback.labels_data st' =
    Fallback.labels_data st ++ map label_line (channels_written evs (PyStr.of_int b)) /\
  Fallback.channels_created st' =
    (Fallback.channels_created st + List.length (channels_written evs (PyStr.of_int b)))%nat /\
  (forall h, h <> PyStr.of_int b -> channels_written evs h = []) /\
  (forall h, labels_written evs h = []) /\
  label_files evs = 0%nat.
Proof.
  revert st. induction nums as [|m nums IH]; intros st; simpl.
  - rewrite app_nil_r. repeat split; auto.
  - pose proof (fallback_process_meter_pass store b m) as Hp.
    destruct (Fallback.process_meter store b m) as [evs label].
    inversion Hp as [ | n | n content]; subst.
    + specialize (IH st). destruct (Fallback.meters_loop store b nums st) as [evs' st'].
      exact IH.
    + specialize (IH st). destruct (Fallback.meters_loop store b nums st) as [evs' st'].
      exact IH.
    + match goal with |- context [Fallback.meters_loop store b nums ?s] =>
        specialize (IH s); destruct (Fallback.meters_loop store b nums s) as [evs' st']
      end.
      destruct IH as (IH1 & IH2 & IH3 & IH4 & IH5). simpl in IH1, IH2.
      simpl. rewrite String.eqb_refl. simpl.
      repeat split; auto.
      * now rewrite IH1, <- app_assoc.
      * rewrite IH2. lia.
      * intros h Hh. destruct (String.eqb_spec (PyStr.of_int b) h); [congruence|].
        simpl. auto.
Qed.

Lemma fallback_process_building_log store n b :
  let '(evs, n') := Fallback.process_building store n b in
  house_log (PyStr.of_int b) evs /\
  n' = (n + label_files evs)%nat /\
  (channels_written evs (PyStr.of_int b) = [] -> n' = n) /\
  (channels_written evs (PyStr.of_int b) <> [] -> n' = S n).
Proof.
  unfold Fallback.process_building.
  pose proof (fallback_meters_loop_labels store b (Fallback.range 1 30)
                {| Fallback.labels_data := []; Fallback.channels_created := 0 |}) as Hl.
  destruct (Fallback.meters_loop _ _ _ _) as [evs st].
  destruct Hl as (Hl1 & _ & Hl3 & Hl4 & Hl5). simpl in Hl1.
  set (ev0 := [Say (ProcessingBuilding b); Mkdir (HouseDir (PyStr.of_int b))]).
  assert (Hch : forall tl h, quiet_channels_only tl ->
            channels_written (ev0 ++ evs ++ tl) h = channels_written evs h).
  { intros tl h Htl. rewrite !channels_written_app, (Htl h). simpl. now rewrite app_nil_r. }
  destruct (Fallback.labels_data st) as [|l ls] eqn:Hlabels.
  - assert (Hnone : channels_written evs (PyStr.of_int b) = [])
      by (destruct (channels_written evs (PyStr.of_int b)); [reflexivity | discriminate]).
    assert (Hq : forall h, labels_written (ev0 ++ evs ++ [Say (NoDataFound b)]) h = [])
      by (intros h; rewrite !labels_written_app, Hl4; reflexivity).
    split; [|split; [|split]].
    + split.
      * intros h Hh. split; [|apply Hq]. rewrite Hch by (intros ?; reflexivity). now apply Hl3.
      * rewrite Hq, Hch by (intros ?; reflexivity). now rewrite Hnone.
    + rewrite !label_files_app, Hl5. unfold ev0, label_files. simpl. lia.
    + reflexivity.
    + rewrite Hch by (intros ?; reflexivity). congruence.
  - assert (Hsome : channels_written evs (PyStr.of_int b) <> [])
      by (intros H; rewrite H in Hl1; discriminate).
    set (tl := [WriteFile (LabelsFile (PyStr.of_int b)) (PyStr.join_lines (l :: ls));
                Say (CreatedLabels (List.length (l :: ls)))]).
    assert (Htl : quiet_channels_only tl) by (intros ?; reflexivity).
    split; [|split; [|split]].
    + split.
      * intros h Hh. split; [rewrite Hch by assumption; now apply Hl3|].
        rewrite !labels_written_app, Hl4. simpl.
        destruct (String.eqb_spec (PyStr.of_int b) h); [congruence | reflexivity].
      * rewrite Hch by assumption. rewrite !labels_written_app, Hl4. simpl.
        rewrite String.eqb_refl, Hl1.
        destruct (channels_written evs (PyStr.of_int b)); [congruence | reflexivity].
    + rewrite !label_files_app, Hl5. unfold ev0, tl, label_files. simpl. lia.
    + rewrite Hch by assumption. congruence.
    + reflexivity.
Qed.

Lemma fallback_buildings_loop_log store nums :
  NoDup (map PyStr.of_int nums) ->
  forall n,
    let '(log, n') := Fallback.buildings_loop store n nums in
    (forall h, labels_agree log h) /\
    (forall h, ~ In h (map PyStr.of_int nums) ->
               channels_written log h = [] /\ labels_written log h = []) /\
    n' = (n + label_files log)%nat.
Proof.
  induction nums as [|b nums IH]; intros Hnd n.
  - simpl. split; [intros h; now apply labels_agree_quiet|].
    split; [auto | unfold label_files; simpl; lia].
  - inversion Hnd as [|? ? Hnotin Hnd']; subst.
    pose proof (fallback_process_building_log store n b) as Hb.
    cbn [Fallback.buildings_loop].
    destruct (Fallback.process_building store n b) as [evs n1].
    destruct Hb as ([Hother Hown] & Hn1 & _).
    specialize (IH Hnd' n1).
    destruct (Fallback.buildings_loop store n1 nums) as [log n'].
    destruct IH as (IH1 & IH2 & IH3).
    split; [|split].
    + intros h. destruct (String.eqb_spec h (PyStr.of_int b)) as [-> | Hne].
      * destruct (IH2 _ Hnotin) as [Hc Hl]. apply labels_agree_intro.
        now rewrite channels_written_app, labels_written_app, Hc, Hl, !app_nil_r.
      * destruct (Hother _ Hne) as [Hc Hl]. specialize (IH1 h). unfold labels_agree in *.
        now rewrite channels_written_app, labels_written_app, Hc, Hl.
    + intros h Hh.
      destruct (Hother h) as [Hc Hl]; [intros ->; apply Hh; now left|].
      destruct (IH2 h) as [Hc' Hl']; [intros Hin; apply Hh; now right|].
      now rewrite channels_written_app, labels_written_app, Hc, Hc', Hl, Hl'.
    + rewrite label_files_app. lia.
Qed.

Lemma fallback_houses_distinct : NoDup (map PyStr.of_int (Fallback.range 1 7)).
Proof.
  vm_compute. repeat constructor; simpl; intuition discriminate.
Qed.

(** ** C2: label files agree with channel files *)

Lemma labels_agree_framed pre log post house :
  quiet pre -> quiet post -> labels_agree log house ->
  labels_agree (pre ++ log ++ post) house.
Proof.
  intros Hpre Hpost H. unfold labels_agree in *.
  now rewrite !channels_written_app, !labels_written_app,
    (quiet_channels _ _ Hpre), (quiet_channels _ _ Hpost),
    (quiet_labels _ _ Hpre), (quiet_labels _ _ Hpost), !app_nil_r.
Qed.

(** C2: in a run of either converter - also in a run that an exception
    ends - and for every house directory: if at least one channel file was
    written into it, its label file was written once, has one line per
    channel file written, and the meter numbers read from its lines are those
    of the channel files written; if no channel file was written, no label
    file was written. *)
Theorem C2_labels_agree_with_channels :
  (forall root house,
     labels_agree (fst (Primary.convert_h5_to_dat_format root)) house) /\
  (forall store house,
     labels_agree (fst (fst (Fallback.convert_h5_to_dat_pytables store))) house).
Proof.
  split.
  - intros root house. unfold Primary.convert_h5_to_dat_format.
    pose proof (primary_houses_loop_log
                  {| Primary.f := Primary.H5File root; Primary.processed_houses := 0 |}
                  (map fst root)) as [Hlog _].
    destruct (Primary.houses_loop _ _) as [evs [st|e]]; cbn [fst snd] in *.
    + apply labels_agree_framed; [reflexivity | reflexivity | apply Hlog].
    + rewrite <- (app_nil_r evs). apply labels_agree_framed; [reflexivity | reflexivity | apply Hlog].
  - intros store house. unfold Fallback.convert_h5_to_dat_pytables.
    pose proof (fallback_buildings_loop_log store _ fallback_houses_distinct 0%nat) as Hlog.
    destruct (Fallback.buildings_loop store 0 (Fallback.range 1 7)) as [evs n].
    destruct Hlog as (Hlog & _). cbn [fst].
    apply labels_agree_framed; [reflexivity | reflexivity | apply Hlog].
Qed.

(** ** C3: what the counter of processed houses counts *)




(** ** C8: house directories *)

(** The pandas based converter makes the six house directories whatever the
    store holds. *)
Lemma fallback_makes_every_house_directory store b :
  In b (Fallback.range 1 7) ->
  In (Mkdir (HouseDir (PyStr.of_int b)))
     (fst (fst (Fallback.convert_h5_to_dat_pytables store))).
Proof.
  intros Hb. unfold Fallback.convert_h5_to_dat_pytables.
  assert (H : forall nums n, In b nums ->
            In (Mkdir (HouseDir (PyStr.of_int b))) (fst (Fallback.buildings_loop store n nums))).
  { induction nums as [|b' nums IH]; intros n; [intros []|].
    cbn [Fallback.buildings_loop].
    destruct (Fallback.process_building store n b') as [evs n1] eqn:Hp.
    specialize (IH n1). destruct (Fallback.buildings_loop store n1 nums) as [evs' n'].
    cbn [fst] in *. intros [-> | Hin]; apply in_or_app; [left | right; auto].
    unfold Fallback.process_building in Hp.
    destruct (Fallback.meters_loop _ _ _ _) as [evm st].
    destruct (Fallback.labels_data st); injection Hp as <- _; simpl; auto. }
  specialize (H (Fallback.range 1 7) 0%nat Hb).
  destruct (Fallback.buildings_loop store 0 (Fallback.range 1 7)) as [evs n].
  cbn [fst] in *. apply in_or_app. right. apply in_or_app. now left.
Qed.

(** In the h5py based converter a pass through the building loop that
    starts with [f] still bound to the container makes the house directory
    of a building that is in it, whatever its meters do. *)
Lemma primary_pass_makes_house_directory root n key :
  PyStr.startswith key "building" = true ->
  has_key key root = true ->
  In (Mkdir (HouseDir (PyStr.remove "building" key)))
     (fst (Primary.process_house
             {| Primary.f := Primary.H5File root; Primary.processed_houses := n |} key)).
Proof.
  intros Hkey Hin. unfold Primary.process_house, has_key in *. rewrite Hkey. cbn [negb Primary.f].
  destruct (lookup key root) as [house_data|]; [|discriminate].
  destruct (h5_contains "elec" house_data) as [[|]|e]; try (simpl; now auto).
  destruct (h5_getitem "elec" house_data) as [[elec|probe rd]|e]; try (simpl; now auto).
  destruct (Primary.meters_loop _ elec _) as [evs [|l labels]]; simpl; auto.
Qed.

(** C8 fails on the h5py based converter: with the container
    [Scenario.two_buildings] the pass for [building1] writes its label file
    and thereby rebinds [f]; the pass for [building2] raises [TypeError] at
    [f[house_key]], before its directory is made.  The run ends with that
    exception, [house_1] was made and [house_2] was not. *)
Theorem C8_second_house_directory_missing :
  let '(log, result) := Primary.convert_h5_to_dat_format Scenario.two_buildings in
  result = Raise TypeError /\
  dir_made log "house_1" = true /\
  dir_made log "house_2" = false /\
  file_content log "house_1/labels.dat" = Some "1 mains"%string /\
  last log (Say Banner) = Say (ProcessingHouse "building2").
Proof.
  vm_compute. repeat split; reflexivity.
Qed.

(** ** C10: a meter whose number cannot be read *)

Lemma primary_meters_loop_app house elec keys1 keys2 :
  Primary.meters_loop house elec (keys1 ++ keys2) =
  (fst (Primary.meters_loop house elec keys1) ++ fst (Primary.meters_loop house elec keys2),
   snd (Primary.meters_loop house elec keys1) ++ snd (Primary.meters_loop house elec keys2)).
Proof.
  induction keys1 as [|key keys1 IH]; simpl.
  - now destruct (Primary.meters_loop house elec keys2).
  - destruct (Primary.process_meter house elec key) as [evs label].
    rewrite IH.
    destruct (Primary.meters_loop house elec keys1) as [evs1 labels1].
    destruct (Primary.meters_loop house elec keys2) as [evs2 labels2].
    simpl. rewrite app_assoc. now destruct label.
Qed.

Lemma lookup_member {A : Type} key (l : list (string * A)) :
  In key (map fst l) -> exists a, lookup key l = Some a.
Proof.
  induction l as [|[k a] l IH]; simpl; [intros []|].
  destruct (String.eqb_spec k key); [eauto|].
  intros [Hk | Hin]; [congruence | auto].
Qed.

(** C10: a member of the [elec] group whose name starts with "meter" and
    whose remainder [int()] refuses is caught by the handler of the meter
    loop: the pass prints the warning with the [ValueError], writes no
    channel file and records no label; the meters before it and after it
    are processed as they are without it. *)
Theorem C10_unparseable_meter_is_skipped :
  forall house elec key,
    In key (map fst elec) ->
    PyStr.startswith key "meter" = true ->
    PyStr.to_int (PyStr.remove "meter" key) = None ->
    Primary.process_meter house elec key = ([Say (CouldNotProcess key ValueError)], None) /\
    forall before after,
      Primary.meters_loop house elec (before ++ key :: after) =
      (fst (Primary.meters_loop house elec before) ++
       [Say (CouldNotProcess key ValueError)] ++
       fst (Primary.meters_loop house elec after),
       snd (Primary.meters_loop house elec before) ++
       snd (Primary.meters_loop house elec after)).
Proof.
  intros house elec key Hin Hprefix Hint.
  assert (Hpass : Primary.process_meter house elec key
                  = ([Say (CouldNotProcess key ValueError)], None)).
  { unfold Primary.process_meter. rewrite Hprefix.
    destruct (String.eqb_spec key "cache") as [-> | _]; [discriminate|].
    cbn [negb]. unfold Primary.meter_body.
    destruct (lookup_member key elec Hin) as [meter_data ->].
    rewrite Hint. reflexivity. }
  split; [exact Hpass|].
  intros before after. rewrite primary_meters_loop_app.
  change (key :: after) with ([key] ++ after). rewrite primary_meters_loop_app.
  cbn [Primary.meters_loop]. rewrite Hpass. simpl. reflexivity.
Qed.

Lemma C10_unparseable_meter_is_skipped_witness :
  Primary.process_meter "1" [("meterX", Group [])] "meterX"
  = ([Say (CouldNotProcess "meterX" ValueError)], None).
Proof.
  apply (C10_unparseable_meter_is_skipped "1" [("meterX", Group [])] "meterX");
    [simpl; left; reflexivity | reflexivity | reflexivity].
Defined.

(** ** C6: the value column of the h5py based converter *)







(** ** C7: exceptions in the pandas based converter *)

Lemma fallback_meters_loop_app store b nums1 nums2 st :
  Fallback.meters_loop store b (nums1 ++ nums2) st =
  (fst (Fallback.meters_loop store b nums1 st) ++
   fst (Fallback.meters_loop store b nums2 (snd (Fallback.meters_loop store b nums1 st))),
   snd (Fallback.meters_loop store b nums2 (snd (Fallback.meters_loop store b nums1 st)))).
Proof.
  revert st. induction nums1 as [|m nums1 IH]; intros st; simpl.
  - now destruct (Fallback.meters_loop store b nums2 st).
  - destruct (Fallback.process_meter store b m) as [evs label].
    match goal with |- context [Fallback.meters_loop store b (nums1 ++ nums2) ?s] =>
      rewrite (IH s); destruct (Fallback.meters_loop store b nums1 s) as [evs1 st1]
    end.
    simpl. destruct (Fallback.meters_loop store b nums2 st1) as [evs2 st2].
    simpl. now rewrite app_assoc.
Qed.

Lemma fallback_meters_loop_incl store b nums m st :
  In m nums ->
  incl (fst (Fallback.process_meter store b m)) (fst (Fallback.meters_loop store b nums st)).
Proof.
  revert st. induction nums as [|m' nums IH]; intros st; [intros []|].
  cbn [Fallback.meters_loop].
  destruct (Fallback.process_meter store b m') as [evs label] eqn:Hp.
  match goal with |- context [Fallback.meters_loop store b nums ?s] =>
    specialize (IH s); destruct (Fallback.meters_loop store b nums s) as [evs' st']
  end.
  cbn [fst] in *. intros [-> | Hin].
  - rewrite Hp. apply incl_appl, incl_refl.
  - apply incl_appr. auto.
Qed.

Lemma fallback_buildings_loop_incl store b m nums n :
  In b nums -> In m (Fallback.range 1 30) ->
  incl (fst (Fallback.process_meter store b m)) (fst (Fallback.buildings_loop store n nums)).
Proof.
  intros Hb Hm. revert n. induction nums as [|b' nums IH]; intros n; [destruct Hb|].
  cbn [Fallback.buildings_loop].
  destruct (Fallback.process_building store n b') as [evs n1] eqn:Hp.
  specialize (fun H => IH H n1).
  destruct (Fallback.buildings_loop store n1 nums) as [evs' n'].
  cbn [fst] in *. destruct Hb as [-> | Hin].
  - apply incl_appl. unfold Fallback.process_building in Hp.
    pose proof (fallback_meters_loop_incl store b (Fallback.range 1 30) m
                  {| Fallback.labels_data := []; Fallback.channels_created := 0 |} Hm) as Hincl.
    destruct (Fallback.meters_loop _ _ _ _) as [evm st]. cbn [fst] in Hincl.
    destruct (Fallback.labels_data st); injection Hp as <- _;
      do 2 apply incl_tl; apply incl_appl; exact Hincl.
  - apply incl_appr. auto.
Qed.

(** C7: when the body of the [try] block raises for a pair of a building
    and a meter, the pass ends without a write and without a label and has
    printed nothing but, at most, the "Found data" message it may have
    printed before the exception; the loop state goes unchanged to the next
    meter, and every pair of the run - whatever happened to other pairs -
    is processed with its own outcome: its events are in the log of the
    run. *)
Theorem C7_exceptions_are_local :
  forall store b m e,
    snd (Fallback.meter_body store b m) = Raise e ->
    (Fallback.process_meter store b m = ([], None) \/
     exists n, Fallback.process_meter store b m = ([Say (FoundData m n)], None)) /\
    (forall before after st,
       Fallback.meters_loop store b (before ++ m :: after) st =
       (fst (Fallback.meters_loop store b before st) ++
        fst (Fallback.process_meter store b m) ++
        fst (Fallback.meters_loop store b after (snd (Fallback.meters_loop store b before st))),
        snd (Fallback.meters_loop store b after (snd (Fallback.meters_loop store b before st))))) /\
    (forall b' m',
       In b' (Fallback.range 1 7) -> In m' (Fallback.range 1 30) ->
       incl (fst (Fallback.process_meter store b' m'))
            (fst (fst (Fallback.convert_h5_to_dat_pytables store)))).
Proof.
  intros store b m e Hraise.
  assert (Hlabel : snd (Fallback.process_meter store b m) = None).
  { unfold Fallback.process_meter.
    destruct (Fallback.meter_body store b m) as [evs r]. simpl in *. now subst r. }
  split; [|split].
  - pose proof (fallback_process_meter_pass store b m) as Hp.
    destruct (Fallback.process_meter store b m) as [evs label]. simpl in Hlabel. subst label.
    inversion Hp; subst; eauto.
  - intros before after st. rewrite fallback_meters_loop_app.
    destruct (Fallback.meters_loop store b before st) as [evs1 st1]. cbn [fst snd].
    cbn [Fallback.meters_loop].
    destruct (Fallback.process_meter store b m) as [evs label]. simpl in Hlabel. subst label.
    destruct (Fallback.meters_loop store b after st1) as [evs2 st2]. reflexivity.
  - intros b' m' Hb' Hm'. unfold Fallback.convert_h5_to_dat_pytables.
    pose proof (fallback_buildings_loop_incl store b' m' (Fallback.range 1 7) 0%nat Hb' Hm') as H.
    destruct (Fallback.buildings_loop store 0 (Fallback.range 1 7)) as [evs n].
    cbn [fst] in *. apply incl_appr, incl_appl. exact H.
Qed.

Lemma C7_exceptions_are_local_witness :
  Fallback.process_meter [("/building1/elec/meter1/table", Unreadable KeyError)] 1 1 = ([], None) \/
  exists n, Fallback.process_meter [("/building1/elec/meter1/table", Unreadable KeyError)] 1 1
            = ([Say (FoundData 1 n)], None).
Proof.
  refine (proj1 (C7_exceptions_are_local
                   [("/building1/elec/meter1/table", Unreadable KeyError)] 1 1 KeyError _)).
  vm_compute. reflexivity.
Defined.

(** ** C9: where the pandas based converter takes the timestamps from *)












(** ** C5: timestamps in the h5py based converter *)




(** ** C4: timestamps in the pandas based converter *)






(** * Further properties of the two converters *)

(** ** The appliance table *)

Lemma standard_mapping_domain m :
  (1 <= m <= 20 -> exists name, standard_redd_mapping m = Some name) /\
  (m < 1 \/ 20 < m -> standard_redd_mapping m = None).
Proof.
  destruct m as [|p|p]; [split; [lia | reflexivity] | | split; [lia | reflexivity]].
  do 5 (try match goal with
            | q : positive |- _ => destruct q
            end);
    (split; [intros H; try lia; simpl; eauto | intros H; try lia; reflexivity]).
Qed.

(** X1: the appliance name of a meter number is never empty and holds
    neither a space nor a line break; for the numbers 1 to 20 it is the
    entry of the table, for every other number - zero and the negative ones
    too - it is "unknown_" followed by the number. *)
Theorem appliance_name_total :
  forall m,
    appliance_name m <> EmptyString /\
    no_char " " (appliance_name m) = true /\
    no_char (ascii_of_nat 10) (appliance_name m) = true /\
    (1 <= m <= 20 -> standard_redd_mapping m = Some (appliance_name m)) /\
    (m < 1 \/ 20 < m -> appliance_name m = ("unknown_" ++ PyStr.of_int m)%string).
Proof.
  intros m. unfold appliance_name.
  destruct (standard_redd_mapping m) as [name|] eqn:Hm.
  - repeat split.
    + intros ->. destruct m as [|p|p]; simpl in Hm; try discriminate;
        do 5 (try match goal with
                  | q : positive |- _ => destruct q; simpl in Hm; try discriminate
                  end).
    + apply (standard_name_no_char _ m name Hm). simpl. auto.
    + apply (standard_name_no_char _ m name Hm). simpl. auto.
    + intros H. rewrite (proj2 (standard_mapping_domain m) H) in Hm. discriminate.
  - repeat split.
    + discriminate.
    + rewrite no_char_app, of_int_no_char by reflexivity. reflexivity.
    + rewrite no_char_app, of_int_no_char by reflexivity. reflexivity.
    + intros H. destruct (proj1 (standard_mapping_domain m) H) as [name Hn]. congruence.
Qed.

Lemma appliance_name_total_witness :
  standard_redd_mapping 11 = Some (appliance_name 11) /\
  appliance_name (-3) = "unknown_-3"%string.
Proof.
  split.
  - apply (appliance_name_total 11). lia.
  - apply (appliance_name_total (-3)). lia.
Defined.

(** ** The h5py based converter: what its loops pass over *)

(** X2: entries of the [elec] group whose name does not start with "meter"
    leave no trace: the meter loop over all keys does what it does over the
    keys that start with "meter".  (The test for the name "cache" never
    decides anything: that name does not start with "meter".) *)
Theorem primary_meter_loop_ignores_other_entries :
  forall house elec keys,
    Primary.meters_loop house elec keys =
    Primary.meters_loop house elec
      (filter (fun key => PyStr.startswith key "meter") keys).
Proof.
  intros house elec keys. induction keys as [|key keys IH]; [reflexivity|].
  cbn [filter]. destruct (PyStr.startswith key "meter") eqn:Hkey.
  - cbn [Primary.meters_loop]. now rewrite IH.
  - cbn [Primary.meters_loop]. unfold Primary.process_meter at 1. rewrite Hkey.
    cbn [negb]. rewrite <- IH.
    destruct (String.eqb key "cache");
      destruct (Primary.meters_loop house elec keys); reflexivity.
Qed.

(** X3: top-level entries whose name does not start with "building" leave
    no trace either: they are passed over before [f] is touched, so that
    they neither print, nor make a directory, nor raise - also after [f]
    has been rebound. *)
Theorem primary_house_loop_ignores_other_entries :
  forall st keys,
    Primary.houses_loop st keys =
    Primary.houses_loop st
      (filter (fun key => PyStr.startswith key "building") keys).
Proof.
  intros st keys. revert st. induction keys as [|key keys IH]; intros st; [reflexivity|].
  cbn [filter]. destruct (PyStr.startswith key "building") eqn:Hkey.
  - cbn [Primary.houses_loop].
    destruct (Primary.process_house st key) as [evs [st'|e]]; [|reflexivity].
    now rewrite IH.
  - cbn [Primary.houses_loop]. unfold Primary.process_house at 1. rewrite Hkey.
    cbn [negb]. rewrite <- IH. destruct (Primary.houses_loop st keys); reflexivity.
Qed.

Lemma primary_houses_loop_raises_after_rebind st keys :
  Primary.f st = Primary.ClosedTextFile ->
  existsb (fun key => PyStr.startswith key "building") keys = true ->
  snd (Primary.houses_loop st keys) = Raise TypeError.
Proof.
  intros Hf. induction keys as [|key keys IH]; [discriminate|].
  cbn [existsb Primary.houses_loop]. unfold Primary.process_house.
  destruct (PyStr.startswith key "building"); cbn [negb orb].
  - intros _. rewrite Hf. reflexivity.
  - intros H. specialize (IH H). destruct (Primary.houses_loop st keys). exact IH.
Qed.

Lemma primary_houses_loop_label_files st keys :
  (label_files (fst (Primary.houses_loop st keys)) <= 1)%nat /\
  (Primary.f st = Primary.ClosedTextFile ->
   label_files (fst (Primary.houses_loop st keys)) = 0%nat).
Proof.
  revert st. induction keys as [|key keys IH]; intros st.
  - split; [unfold label_files; simpl; lia | reflexivity].
  - cbn [Primary.houses_loop].
    pose proof (primary_process_house_pass st key) as Hp.
    destruct (Primary.process_house st key) as [evs r]. cbn [fst snd] in Hp.
    inversion Hp as [? ? Hq Hr | ? house ids Hids Hch Hlab Hcount [root Hroot]]; subst.
    + destruct Hr as [-> | [e ->]].
      * destruct (IH st) as [IH1 IH2].
        destruct (Primary.houses_loop st keys) as [evs' r']. cbn [fst] in *.
        rewrite label_files_app, (quiet_label_files _ Hq). split; [lia | exact IH2].
      * cbn [fst]. rewrite (quiet_label_files _ Hq). split; [lia | reflexivity].
    + match goal with |- context [Primary.houses_loop ?s keys] =>
        destruct (IH s) as [_ IH2]; specialize (IH2 eq_refl);
        destruct (Primary.houses_loop s keys) as [evs' r']
      end.
      cbn [fst] in *. rewrite label_files_app, Hcount, IH2.
      split; [lia | congruence].
Qed.

(** X4: a run of the h5py based converter writes at most one label file,
    and a run that ends normally reports at most one processed house: once a
    label file is written [f] is the closed label file, and the next entry
    whose name starts with "building" ends the run with the [TypeError] of
    [f[house_key]]. *)
Theorem primary_at_most_one_label_file :
  (forall root,
     (label_files (fst (Primary.convert_h5_to_dat_format root)) <= 1)%nat /\
     match snd (Primary.convert_h5_to_dat_format root) with
     | Ok n => (n <= 1)%nat
     | Raise _ => True
     end) /\
  (forall st keys,
     Primary.f st = Primary.ClosedTextFile ->
     existsb (fun key => PyStr.startswith key "building") keys = true ->
     snd (Primary.houses_loop st keys) = Raise TypeError).
Proof.
  split; [|exact primary_houses_loop_raises_after_rebind].
  intros root. unfold Primary.convert_h5_to_dat_format.
  pose proof (primary_houses_loop_label_files
                {| Primary.f := Primary.H5File root; Primary.processed_houses := 0 |}
                (map fst root)) as [Hle _].
  pose proof (primary_houses_loop_log
                {| Primary.f := Primary.H5File root; Primary.processed_houses := 0 |}
                (map fst root)) as [_ Hn].
  destruct (Primary.houses_loop _ _) as [evs [st|e]]; cbn [fst snd] in *.
  - rewrite (Hn st eq_refl). rewrite !label_files_app.
    unfold label_files in *. simpl. lia.
  - rewrite label_files_app. unfold label_files in *. simpl. split; [lia | exact I].
Qed.

Lemma primary_at_most_one_label_file_witness :
  snd (Primary.houses_loop
         {| Primary.f := Primary.ClosedTextFile; Primary.processed_houses := 1 |}
         ["other"; "building2"]%string) = Raise TypeError.
Proof.
  apply (proj2 primary_at_most_one_label_file); reflexivity.
Defined.

(** ** The h5py based converter reports what it leaves out *)

Lemma primary_meter_body_says house key elec r :
  Primary.meter_body house key elec = Ok r -> fst r <> [].
Proof.
  unfold Primary.meter_body, bind.
  destruct (or_raise KeyError _) as [meter_data|]; [|discriminate].
  destruct (or_raise ValueError _) as [meter_num|]; [|discriminate].
  destruct (h5_contains "table" meter_data) as [[|]|]; cbn [negb];
    [|intros [= <-]; discriminate|discriminate].
  destruct (h5_getitem "table" meter_data) as [table|]; [|discriminate].
  destruct (Primary.read_table key table) as [[d|ts pv]|e];
    try (intros [= <-]; discriminate).
  destruct (astype_float pv) as [power|]; [|discriminate].
  destruct (dataframe_rows ts power) as [rows|]; [|discriminate].
  intros [= <-]. discriminate.
Qed.

(** X5: the h5py based converter leaves out no member silently.  A pass
    over a key that starts with "meter" and that records no label writes
    nothing and prints exactly one message, and this message is one of: no
    table, empty table, no power values, could not read the table, could not
    process the member. *)
Theorem primary_reports_every_skipped_meter :
  forall house elec key,
    PyStr.startswith key "meter" = true ->
    snd (Primary.process_meter house elec key) = None ->
    exists d,
      fst (Primary.process_meter house elec key) = [Say d] /\
      is_meter_diag d = true.
Proof.
  intros house elec key Hkey.
  unfold Primary.process_meter. rewrite Hkey. cbn [negb].
  destruct (String.eqb_spec key "cache") as [-> | _]; [discriminate|].
  destruct (Primary.meter_body house key elec) as [[evs label]|e] eqn:Hbody;
    [|intros _; eexists; split; reflexivity].
  cbn [fst snd]. intros ->. revert Hbody. unfold Primary.meter_body, bind.
  destruct (or_raise KeyError _) as [meter_data|]; [|discriminate].
  destruct (or_raise ValueError _) as [meter_num|]; [|discriminate].
  destruct (h5_contains "table" meter_data) as [[|]|]; cbn [negb];
    [|intros [= <-]; eexists; split; reflexivity|discriminate].
  destruct (h5_getitem "table" meter_data) as [table|]; [|discriminate].
  destruct (Primary.read_table key table) as [[d|ts pv]|e] eqn:Hread.
  - intros [= <-]. exists d. split; [reflexivity|].
    destruct (read_table_continue _ _ _ Hread) as [-> | ->]; reflexivity.
  - destruct (astype_float pv) as [power|]; [|discriminate].
    destruct (dataframe_rows ts power) as [rows|]; discriminate.
  - intros [= <-]. eexists; split; reflexivity.
Qed.

Lemma primary_reports_every_skipped_meter_witness :
  exists d,
    fst (Primary.process_meter "1" [("meterX", Group [])] "meterX") = [Say d] /\
    is_meter_diag d = true.
Proof.
  apply primary_reports_every_skipped_meter; reflexivity.
Defined.

(** ** From the names of the container to the names of the output *)

Lemma prefix_first_differs c old c' s :
  Ascii.eqb c' c = false -> String.prefix (String c old) (String c' s) = false.
Proof.
  intros H. cbn [String.prefix].
  destruct (ascii_dec c c') as [-> |]; [|reflexivity].
  now rewrite Ascii.eqb_refl in H.
Qed.

Lemma remove_without_first_char c old s :
  no_char c s = true -> PyStr.remove (String c old) s = s.
Proof.
  unfold PyStr.remove. induction s as [|c' s IH]; [reflexivity|].
  cbn [no_char]. intros H. apply andb_true_iff in H as [Hc Hs].
  apply negb_true_iff in Hc.
  cbn [PyStr.remove_from]. rewrite (prefix_first_differs c old c' s Hc).
  now rewrite IH.
Qed.

(** X6: the names that the h5py based converter derives from the keys of
    the container give the numbers back: of a member named [meter<n>] the
    meter number is [n], for every integer [n], and the directory of a group
    named [building<n>] is [house_<n>]; both keys pass the tests of their
    prefix. *)
Theorem primary_key_numbers_round_trip :
  forall n,
    PyStr.startswith ("meter" ++ PyStr.of_int n) "meter" = true /\
    PyStr.to_int (PyStr.remove "meter" ("meter" ++ PyStr.of_int n)) = Some n /\
    PyStr.startswith ("building" ++ PyStr.of_int n) "building" = true /\
    path_text (HouseDir (PyStr.remove "building" ("building" ++ PyStr.of_int n)))
    = ("house_" ++ PyStr.of_int n)%string.
Proof.
  intros n.
  assert (Hm : PyStr.remove "meter" ("meter" ++ PyStr.of_int n) = PyStr.of_int n).
  { transitivity (PyStr.remove "meter" (PyStr.of_int n)).
    - unfold PyStr.remove. simpl. now destruct (PyStr.of_int n).
    - apply remove_without_first_char. now apply of_int_no_char. }
  assert (Hb : PyStr.remove "building" ("building" ++ PyStr.of_int n) = PyStr.of_int n).
  { transitivity (PyStr.remove "building" (PyStr.of_int n)).
    - unfold PyStr.remove. simpl. now destruct (PyStr.of_int n).
    - apply remove_without_first_char. now apply of_int_no_char. }
  repeat split.
  - unfold PyStr.startswith. simpl. now destruct (PyStr.of_int n).
  - rewrite Hm. apply to_int_of_int.
  - unfold PyStr.startswith. simpl. now destruct (PyStr.of_int n).
  - now rewrite Hb.
Qed.

(** ** What the pandas based converter writes, and what it reads *)

Lemma fallback_meters_loop_channels store b nums st :
  channels_written (fst (Fallback.meters_loop store b nums st)) (PyStr.of_int b)
  = filter (fallback_converted store b) nums.
Proof.
  revert st. induction nums as [|m nums IH]; intros st; [reflexivity|].
  cbn [Fallback.meters_loop filter]. unfold fallback_converted at 1.
  pose proof (fallback_process_meter_pass store b m) as Hp.
  destruct (Fallback.process_meter store b m) as [evs label].
  match goal with |- context [Fallback.meters_loop store b nums ?s] =>
    specialize (IH s); destruct (Fallback.meters_loop store b nums s) as [evs' st']
  end.
  cbn [fst snd] in *. rewrite channels_written_app, IH.
  inversion Hp; subst; cbn [channels_written flat_map channel_of app]; try reflexivity.
  now rewrite String.eqb_refl.
Qed.

Lemma fallback_process_building_channels store n b :
  channels_written (fst (Fallback.process_building store n b)) (PyStr.of_int b)
  = filter (fallback_converted store b) (Fallback.range 1 30).
Proof.
  unfold Fallback.process_building.
  pose proof (fallback_meters_loop_channels store b (Fallback.range 1 30)
                {| Fallback.labels_data := []; Fallback.channels_created := 0 |}) as H.
  destruct (Fallback.meters_loop _ _ _ _) as [evs st]. cbn [fst] in H.
  destruct (Fallback.labels_data st); cbn [fst];
    rewrite !channels_written_app, H;
    cbn [channels_written flat_map channel_of app]; now rewrite app_nil_r.
Qed.

Lemma fallback_buildings_loop_channels store nums :
  NoDup (map PyStr.of_int nums) ->
  forall n b, In b nums ->
    channels_written (fst (Fallback.buildings_loop store n nums)) (PyStr.of_int b)
    = filter (fallback_converted store b) (Fallback.range 1 30).
Proof.
  induction nums as [|b' nums IH]; intros Hnd n b; [intros []|].
  inversion Hnd as [|? ? Hnotin Hnd']; subst.
  cbn [Fallback.buildings_loop].
  pose proof (fallback_process_building_channels store n b') as Hown.
  pose proof (fallback_process_building_log store n b') as Hlog.
  destruct (Fallback.process_building store n b') as [evs n1].
  destruct Hlog as ([Hother _] & _). cbn [fst] in Hown.
  pose proof (fallback_buildings_loop_log store nums Hnd' n1) as Hrest.
  specialize (IH Hnd' n1 b).
  destruct (Fallback.buildings_loop store n1 nums) as [log n'].
  destruct Hrest as (_ & Hout & _). cbn [fst] in *.
  rewrite channels_written_app. intros [-> | Hin].
  - rewrite Hown. destruct (Hout _ Hnotin) as [-> _]. apply app_nil_r.
  - assert (Hne : PyStr.of_int b <> PyStr.of_int b').
    { intros Heq. apply Hnotin. rewrite <- Heq. now apply in_map. }
    destruct (Hother _ Hne) as [-> _]. now apply IH.
Qed.

Lemma range_NoDup a b : NoDup (Fallback.range a b).
Proof.
  unfold Fallback.range. generalize (seq_NoDup (Z.to_nat (b - a)) 0).
  generalize (seq 0 (Z.to_nat (b - a))) as l.
  induction l as [|i l IH]; intros Hnd; cbn [map]; [constructor|].
  inversion Hnd as [|? ? Hnotin Hnd']; subst. constructor; [|now apply IH].
  rewrite in_map_iff. intros (j & Hj & Hin).
  assert (j = i) by lia. now subst.
Qed.

Lemma range_bounds a b x : In x (Fallback.range a b) -> a <= x < b.
Proof.
  unfold Fallback.range. rewrite in_map_iff. intros (i & <- & Hi).
  apply in_seq in Hi. lia.
Qed.

(** X7: in a run of the pandas based converter the channel files written
    into [house_b], for a building number [b] from 1 to 6, are those of the
    meters from 1 to 29 whose pass records a label, in increasing order;
    each is written once, and no channel file is written anywhere else.
    There is no channel file of a meter 30. *)
Theorem fallback_channel_files_written :
  forall store,
    (forall b, In b (Fallback.range 1 7) ->
       channels_written (fst (fst (Fallback.convert_h5_to_dat_pytables store))) (PyStr.of_int b)
       = filter (fallback_converted store b) (Fallback.range 1 30)) /\
    (forall h,
       NoDup (channels_written (fst (fst (Fallback.convert_h5_to_dat_pytables store))) h) /\
       Forall (fun m => 1 <= m <= 29)
              (channels_written (fst (fst (Fallback.convert_h5_to_dat_pytables store))) h)) /\
    (forall h, ~ In h (map PyStr.of_int (Fallback.range 1 7)) ->
       channels_written (fst (fst (Fallback.convert_h5_to_dat_pytables store))) h = []).
Proof.
  intros store.
  set (log := fst (fst (Fallback.convert_h5_to_dat_pytables store))).
  assert (Hlog : forall h,
            channels_written log h
            = channels_written (fst (Fallback.buildings_loop store 0 (Fallback.range 1 7))) h).
  { intros h. unfold log, Fallback.convert_h5_to_dat_pytables.
    destruct (Fallback.buildings_loop store 0 (Fallback.range 1 7)) as [evs n].
    cbn [fst]. rewrite !channels_written_app.
    cbn [channels_written flat_map channel_of app]. now rewrite app_nil_r. }
  assert (Hin : forall b, In b (Fallback.range 1 7) ->
            channels_written log (PyStr.of_int b)
            = filter (fallback_converted store b) (Fallback.range 1 30)).
  { intros b Hb. rewrite Hlog.
    now apply fallback_buildings_loop_channels; [apply fallback_houses_distinct|]. }
  assert (Hout : forall h, ~ In h (map PyStr.of_int (Fallback.range 1 7)) ->
            channels_written log h = []).
  { intros h Hh. rewrite Hlog.
    pose proof (fallback_buildings_loop_log store _ fallback_houses_distinct 0%nat) as H.
    destruct (Fallback.buildings_loop store 0 (Fallback.range 1 7)) as [evs n].
    destruct H as (_ & H & _). now destruct (H h Hh). }
  split; [exact Hin|]. split; [|exact Hout].
  intros h.
  destruct (in_dec String.string_dec h (map PyStr.of_int (Fallback.range 1 7))) as [Hh | Hh].
  - apply in_map_iff in Hh as (b & <- & Hb). rewrite (Hin b Hb). split.
    + apply NoDup_filter, range_NoDup.
    + apply Forall_forall. intros m Hm. apply filter_In in Hm as [Hm _].
      apply range_bounds in Hm. lia.
  - rewrite (Hout h Hh). split; constructor.
Qed.

Lemma fallback_channel_files_written_witness :
  channels_written (fst (fst (Fallback.convert_h5_to_dat_pytables Scenario.one_meter_store)))
                   (PyStr.of_int 3)
  = filter (fallback_converted Scenario.one_meter_store 3) (Fallback.range 1 30) /\
  channels_written (fst (fst (Fallback.convert_h5_to_dat_pytables Scenario.one_meter_store)))
                   "7" = [].
Proof.
  split.
  - apply (proj1 (fallback_channel_files_written Scenario.one_meter_store)).
    vm_compute. auto.
  - apply (proj2 (proj2 (fallback_channel_files_written Scenario.one_meter_store))).
    vm_compute. intuition discriminate.
Defined.

(** ** The keys that the pandas based converter reads *)

Lemma fallback_process_meter_ext store store' b m :
  lookup (Fallback.meter_key b m) store = lookup (Fallback.meter_key b m) store' ->
  Fallback.process_meter store b m = Fallback.process_meter store' b m.
Proof.
  intros H. unfold Fallback.process_meter, Fallback.meter_body. now rewrite H.
Qed.

Lemma fallback_meters_loop_ext store store' b nums :
  (forall m, In m nums ->
     lookup (Fallback.meter_key b m) store = lookup (Fallback.meter_key b m) store') ->
  forall st, Fallback.meters_loop store b nums st = Fallback.meters_loop store' b nums st.
Proof.
  induction nums as [|m nums IH]; intros H st; [reflexivity|].
  cbn [Fallback.meters_loop].
  rewrite (fallback_process_meter_ext store store' b m) by (apply H; now left).
  destruct (Fallback.process_meter store' b m) as [evs label].
  now rewrite IH by (intros m' Hm'; apply H; now right).
Qed.

Lemma fallback_buildings_loop_ext store store' nums :
  (forall b m, In b nums -> In m (Fallback.range 1 30) ->
     lookup (Fallback.meter_key b m) store = lookup (Fallback.meter_key b m) store') ->
  forall n, Fallback.buildings_loop store n nums = Fallback.buildings_loop store' n nums.
Proof.
  induction nums as [|b nums IH]; intros H n; [reflexivity|].
  cbn [Fallback.buildings_loop]. unfold Fallback.process_building.
  rewrite (fallback_meters_loop_ext store store' b (Fallback.range 1 30))
    by (intros m Hm; apply H; [now left | exact Hm]).
  destruct (Fallback.meters_loop store' b (Fallback.range 1 30) _) as [evs st].
  destruct (Fallback.labels_data st);
    now rewrite IH by (intros b' m Hb' Hm; apply H; [now right | exact Hm]).
Qed.

(** X8: the conversion of the pandas based converter depends on the store
    only through the 174 nodes [/building<b>/elec/meter<m>/table] with [b]
    from 1 to 6 and [m] from 1 to 29: two stores that agree on them give the
    same directories, the same files, the same count, the same result and -
    the listing of the keys printed first apart, of which the log keeps no
    text - the same messages.  A seventh building, a thirtieth meter and
    every other node are not read for the conversion. *)
Theorem fallback_reads_only_probed_keys :
  forall store store',
    (forall b m, 1 <= b <= 6 -> 1 <= m <= 29 ->
       lookup (Fallback.meter_key b m) store = lookup (Fallback.meter_key b m) store') ->
    Fallback.convert_h5_to_dat_pytables store = Fallback.convert_h5_to_dat_pytables store'.
Proof.
  intros store store' H. unfold Fallback.convert_h5_to_dat_pytables.
  rewrite (fallback_buildings_loop_ext store store' (Fallback.range 1 7)); [reflexivity|].
  intros b m Hb Hm. apply range_bounds in Hb, Hm. apply H; lia.
Qed.

Lemma fallback_reads_only_probed_keys_witness :
  Fallback.convert_h5_to_dat_pytables []
  = Fallback.convert_h5_to_dat_pytables
      [("/building7/elec/meter1/table", Frame Scenario.one_meter_frame);
       ("/building1/elec/meter30/table", Frame Scenario.one_meter_frame);
       ("/building1/elec/meter1", Frame Scenario.one_meter_frame)].
Proof.
  apply fallback_reads_only_probed_keys.
  intros b m Hb Hm.
  assert (Hb' : In b (Fallback.range 1 7)) by (vm_compute; lia).
  assert (Hm' : In m (Fallback.range 1 30)) by (vm_compute; lia).
  vm_compute in Hb', Hm'.
  repeat (destruct Hb' as [<- | Hb']; [|]); try contradiction;
    repeat (destruct Hm' as [<- | Hm']; [vm_compute; reflexivity|]); contradiction.
Defined.

(** ** What the pandas based converter counts and returns *)

Lemma filter_nil_existsb {A : Type} (f : A -> bool) l :
  filter f l = [] <-> existsb f l = false.
Proof.
  induction l as [|a l IH]; cbn [filter existsb]; [tauto|].
  destruct (f a); cbn [orb]; [split; discriminate | exact IH].
Qed.

Lemma fallback_process_building_count store n b :
  snd (Fallback.process_building store n b)
  = if building_converted store b then S n else n.
Proof.
  pose proof (fallback_process_building_channels store n b) as Hch.
  pose proof (fallback_process_building_log store n b) as Hlog.
  destruct (Fallback.process_building store n b) as [evs n'].
  destruct Hlog as (_ & _ & Hnone & Hsome). cbn [fst snd] in *.
  unfold building_converted.
  destruct (existsb _ _) eqn:He.
  - apply Hsome. rewrite Hch. intros Hnil. apply filter_nil_existsb in Hnil. congruence.
  - apply Hnone. rewrite Hch. now apply filter_nil_existsb.
Qed.

Lemma fallback_buildings_loop_count store nums :
  forall n,
    snd (Fallback.buildings_loop store n nums)
    = (n + List.length (filter (building_converted store) nums))%nat.
Proof.
  induction nums as [|b nums IH]; intros n; cbn [Fallback.buildings_loop filter].
  - cbn [snd List.length]. lia.
  - pose proof (fallback_process_building_count store n b) as Hb.
    destruct (Fallback.process_building store n b) as [evs n1]. cbn [snd] in Hb.
    specialize (IH n1). destruct (Fallback.buildings_loop store n1 nums) as [evs' n'].
    cbn [snd] in *. subst n1.
    destruct (building_converted store b); cbn [List.length]; lia.
Qed.

(** X9: the number of houses that the pandas based converter reports is the
    number of buildings from 1 to 6 with at least one meter, from 1 to 29,
    whose pass records a label; the function returns [True] exactly if there
    is such a building, and [False] if no meter of any building was
    converted - also if the store is empty. *)
Theorem fallback_counts_converted_buildings :
  forall store,
    snd (fst (Fallback.convert_h5_to_dat_pytables store))
    = List.length (filter (building_converted store) (Fallback.range 1 7)) /\
    snd (Fallback.convert_h5_to_dat_pytables store)
    = existsb (building_converted store) (Fallback.range 1 7) /\
    (snd (Fallback.convert_h5_to_dat_pytables store) = true <->
     exists b m, 1 <= b <= 6 /\ 1 <= m <= 29 /\ fallback_converted store b m = true).
Proof.
  intros store.
  pose proof (fallback_buildings_loop_count store (Fallback.range 1 7) 0%nat) as Hn.
  unfold Fallback.convert_h5_to_dat_pytables.
  destruct (Fallback.buildings_loop store 0 (Fallback.range 1 7)) as [evs n].
  cbn [fst snd] in *. rewrite Nat.add_0_l in Hn.
  assert (Hret : Nat.ltb 0 n = existsb (building_converted store) (Fallback.range 1 7)).
  { rewrite Hn.
    destruct (existsb _ _) eqn:He.
    - apply Nat.ltb_lt.
      destruct (filter _ _) eqn:Hf; [apply filter_nil_existsb in Hf; congruence|].
      cbn [List.length]. lia.
    - apply filter_nil_existsb in He. now rewrite He. }
  split; [exact Hn|]. split; [exact Hret|].
  rewrite Hret, existsb_exists. unfold building_converted. split.
  - intros (b & Hb & Hconv). apply existsb_exists in Hconv as (m & Hm & Hconv).
    apply range_bounds in Hb, Hm. exists b, m. repeat split; try lia. exact Hconv.
  - intros (b & m & Hb & Hm & Hconv). exists b. split.
    + unfold Fallback.range. apply in_map_iff. exists (Z.to_nat (b - 1)).
      split; [lia|]. apply in_seq. lia.
    + apply existsb_exists. exists m. split; [|exact Hconv].
      unfold Fallback.range. apply in_map_iff. exists (Z.to_nat (m - 1)).
      split; [lia|]. apply in_seq. lia.
Qed.

(** ** The value column of the pandas based converter *)

Lemma find_power_col_some cols c :
  Fallback.find_power_col cols = Ok (Some c) ->
  In c cols /\ Fallback.is_power_label c = Ok true.
Proof.
  induction cols as [|col cols IH]; cbn [Fallback.find_power_col]; [discriminate|].
  unfold bind. destruct (Fallback.is_power_label col) as [[|]|] eqn:Hcol; try discriminate.
  - intros [= <-]. split; [now left | exact Hcol].
  - intros H. destruct (IH H). split; [now right | assumption].
Qed.

Lemma find_power_col_names names :
  Fallback.find_power_col (map LStr names)
  = Ok (option_map LStr (find is_power_name names)).
Proof.
  induction names as [|s names IH]; [reflexivity|].
  cbn [map Fallback.find_power_col Fallback.is_power_label bind find].
  fold (is_power_name s). destruct (is_power_name s); [reflexivity | exact IH].
Qed.

Lemma non_index_cols_names names :
  Fallback.non_index_cols (map LStr names)
  = map LStr (filter (fun s => negb (String.eqb s "index")) names).
Proof.
  unfold Fallback.non_index_cols.
  induction names as [|s names IH]; [reflexivity|].
  cbn [map filter label_eqb]. destruct (String.eqb s "index"); cbn [negb map]; now rewrite IH.
Qed.

(** X10: the value column that the pandas based converter picks is a column
    of the frame and never the column "index".  It finds no column only in a
    frame whose every label is "index".  Under labels that are strings the
    search raises nothing, and the column is the first one whose label holds
    "values_block", or "power" in any case of the letters; without such a
    label it is the first column whose label is not "index". *)
Theorem fallback_value_column :
  (forall data c,
     Fallback.power_col data = Ok (Some c) ->
     In c (map fst (df_columns data)) /\ c <> LStr "index") /\
  (forall data c,
     Fallback.power_col data = Ok None ->
     In c (map fst (df_columns data)) -> c = LStr "index") /\
  (forall data names,
     map fst (df_columns data) = map LStr names ->
     Fallback.power_col data =
     Ok (match find is_power_name names with
         | Some s => Some (LStr s)
         | None =>
             match filter (fun s => negb (String.eqb s "index")) names with
             | s :: _ => Some (LStr s)
             | [] => None
             end
         end)).
Proof.
  split; [|split].
  - intros data c. unfold Fallback.power_col, bind.
    destruct (Fallback.find_power_col _) as [[col|]|] eqn:Hfind; try discriminate.
    + intros [= <-]. destruct (find_power_col_some _ _ Hfind) as [Hin Hlabel].
      split; [exact Hin|]. intros ->. discriminate.
    + destruct (Fallback.non_index_cols _) as [|col rest] eqn:Hnon; [discriminate|].
      intros [= <-].
      assert (Hin : In col (Fallback.non_index_cols (map fst (df_columns data))))
        by (rewrite Hnon; now left).
      unfold Fallback.non_index_cols in Hin. apply filter_In in Hin as [Hin Hne].
      split; [exact Hin|]. intros ->. discriminate.
  - intros data c. unfold Fallback.power_col, bind.
    destruct (Fallback.find_power_col _) as [[col|]|]; try discriminate.
    destruct (Fallback.non_index_cols _) as [|col rest] eqn:Hnon; [|discriminate].
    intros _ Hin.
    destruct (label_eqb c (LStr "index")) eqn:Heq.
    + destruct c as [s|items|k]; try discriminate. cbn [label_eqb] in Heq.
      apply String.eqb_eq in Heq. now subst.
    + assert (Hc : In c (Fallback.non_index_cols (map fst (df_columns data)))).
      { unfold Fallback.non_index_cols. apply filter_In. split; [exact Hin|].
        now rewrite Heq. }
      rewrite Hnon in Hc. destruct Hc.
  - intros data names Hnames. unfold Fallback.power_col. rewrite Hnames.
    rewrite find_power_col_names, non_index_cols_names. cbn [bind].
    destruct (find is_power_name names); cbn [option_map]; [reflexivity|].
    now destruct (filter _ names).
Qed.

Lemma fallback_value_column_witness :
  (In (LStr "power") (map fst (df_columns Scenario.one_meter_frame)) /\
   LStr "power" <> LStr "index") /\
  Fallback.power_col
    {| df_len := 1; df_index := Arr1 (Ints [0]);
       df_columns := [(LStr "index", Arr1 (Ints [7])); (LStr "VALUES_BLOCK_0", Arr1 (Ints [1]));
                      (LStr "Power", Arr1 (Ints [2]))] |}
  = Ok (Some (LStr "Power")).
Proof.
  split.
  - apply (proj1 fallback_value_column Scenario.one_meter_frame). reflexivity.
  - apply (proj2 (proj2 fallback_value_column) _ ["index"; "VALUES_BLOCK_0"; "Power"]%string).
    reflexivity.
Defined.

(** ** The directories of the pandas based converter *)

Lemma dirs_made_app log1 log2 : dirs_made (log1 ++ log2) = dirs_made log1 ++ dirs_made log2.
Proof. apply flat_map_app. Qed.

Lemma fallback_meters_loop_dirs store b nums st :
  dirs_made (fst (Fallback.meters_loop store b nums st)) = [].
Proof.
  revert st. induction nums as [|m nums IH]; intros st; [reflexivity|].
  cbn [Fallback.meters_loop].
  pose proof (fallback_process_meter_pass store b m) as Hp.
  destruct (Fallback.process_meter store b m) as [evs label].
  match goal with |- context [Fallback.meters_loop store b nums ?s] =>
    specialize (IH s); destruct (Fallback.meters_loop store b nums s) as [evs' st']
  end.
  cbn [fst] in *. rewrite dirs_made_app, IH. inversion Hp; reflexivity.
Qed.

Lemma fallback_process_building_dirs store n b :
  dirs_made (fst (Fallback.process_building store n b)) = [HouseDir (PyStr.of_int b)].
Proof.
  unfold Fallback.process_building.
  pose proof (fallback_meters_loop_dirs store b (Fallback.range 1 30)
                {| Fallback.labels_data := []; Fallback.channels_created := 0 |}) as H.
  destruct (Fallback.meters_loop _ _ _ _) as [evs st]. cbn [fst] in H.
  destruct (Fallback.labels_data st); cbn [fst];
    rewrite !dirs_made_app, H; reflexivity.
Qed.

Lemma fallback_buildings_loop_dirs store nums :
  forall n,
    dirs_made (fst (Fallback.buildings_loop store n nums))
    = map (fun b => HouseDir (PyStr.of_int b)) nums.
Proof.
  induction nums as [|b nums IH]; intros n; [reflexivity|].
  cbn [Fallback.buildings_loop map].
  pose proof (fallback_process_building_dirs store n b) as Hb.
  destruct (Fallback.process_building store n b) as [evs n1].
  specialize (IH n1). destruct (Fallback.buildings_loop store n1 nums) as [evs' n'].
  cbn [fst] in *. now rewrite dirs_made_app, Hb, IH.
Qed.

(** X11: whatever the store holds, a run of the pandas based converter
    makes the same seven directories in the same order: the output directory
    and then [house_1] to [house_6], each once - also for a building of
    which nothing is converted, and for an empty store. *)
Theorem fallback_directories_made :
  forall store,
    dirs_made (fst (fst (Fallback.convert_h5_to_dat_pytables store)))
    = [OutputDir; HouseDir "1"; HouseDir "2"; HouseDir "3";
       HouseDir "4"; HouseDir "5"; HouseDir "6"].
Proof.
  intros store. unfold Fallback.convert_h5_to_dat_pytables.
  pose proof (fallback_buildings_loop_dirs store (Fallback.range 1 7) 0%nat) as H.
  destruct (Fallback.buildings_loop store 0 (Fallback.range 1 7)) as [evs n].
  cbn [fst] in *. rewrite !dirs_made_app, H. reflexivity.
Qed.
